(** * MiraIO: the presign service (package main, package utils)

    A shallow embedding of the Go sources

      - the entry point that has [LoadConfig], [main] and [presignHandler],
      - [pkg/main.go] (an entry point without [LoadConfig], with the same
        [presignHandler]),
      - [pkg/utils/logger.go] (the leveled loggers),

    and the properties of the request handler and of configuration
    loading that the design document states.

    The libraries the program calls (gin, minio-go, godotenv, os, net/url)
    are not part of the repository.  Their data is modelled here, what they
    compute is taken from the class [Runtime]. *)

From Stdlib Require Import ZArith Ascii String.
From stdpp Require Import base option strings list gmap.

Local Open Scope Z_scope.
Local Open Scope string_scope.

(** ** Constants of [net/http] and [time] *)

Module http.
Definition StatusOK : Z := 200.
Definition StatusBadRequest : Z := 400.
Definition StatusInternalServerError : Z := 500.
End http.

Module time.
(** [time.Duration] is an [int64] count of nanoseconds. *)
Definition Duration : Type := Z.
Definition Nanosecond : Duration := 1.
Definition Microsecond : Duration := 1000 * Nanosecond.
Definition Millisecond : Duration := 1000 * Microsecond.
Definition Second : Duration := 1000 * Millisecond.
Definition Minute : Duration := 60 * Second.
End time.

(** ** [fmt.Sprintf]

    The operands of every format in the repository are strings (an [error]
    operand is handed over as its [Error()] text), and the only verbs are
    [%s] and [%v].  For those, and for [%%], a missing operand, a trailing
    [%] and left-over operands, the function prints what [fmt] prints.  Any
    other verb is printed in [fmt]'s bad-verb form, which is right for the
    verbs that do not apply to a string; [q], [x], [X], [T], [p], flags and
    widths are not modelled. *)

Module fmt.
Definition verb (c : ascii) : string := String c "".

Fixpoint extra_operands (args : list string) : string :=
  match args with
  | [] => ""
  | [a] => "string=" +:+ a
  | a :: rest => "string=" +:+ a +:+ ", " +:+ extra_operands rest
  end.

Definition extra (args : list string) : string :=
  match args with
  | [] => ""
  | _ => "%!(EXTRA " +:+ extra_operands args +:+ ")"
  end.

Fixpoint Sprintf (format : string) (args : list string) : string :=
  match format with
  | "" => extra args
  | String "%" "" => "%!(NOVERB)" +:+ extra args
  | String "%" (String c rest) =>
      if Ascii.eqb c "%"%char then "%" +:+ Sprintf rest args
      else
        match args with
        | [] => "%!" +:+ verb c +:+ "(MISSING)" +:+ Sprintf rest []
        | a :: args' =>
            if Ascii.eqb c "s"%char || Ascii.eqb c "v"%char then a +:+ Sprintf rest args'
            else "%!" +:+ verb c +:+ "(string=" +:+ a +:+ ")" +:+ Sprintf rest args'
        end
  | String c rest => String c (Sprintf rest args)
  end.
End fmt.

(** ** [net/url]: [url.Values] is [map[string][]string] *)

Module url.
Abbreviation Values := (gmap string (list string)).

Definition make_Values : Values := ∅.

(** [v.Set(key, value)]: the key now holds exactly [value]. *)
Definition Set_ (v : Values) (key value : string) : Values :=
  <[key := [value]]> v.

(** [v.Get(key)]: the first value of the key, [""] when there is none. *)
Definition Get (v : Values) (key : string) : string :=
  match v !! key with
  | Some (x :: _) => x
  | _ => ""
  end.
End url.

(** ** The outside of the process

    [error] are the non-nil values of Go's [error] interface, [URL] the
    values behind a non-nil [*url.URL], [Client] those behind a non-nil
    [*minio.Client].  A Go pointer or interface value that may be nil is an
    [option].  [World] is everything the process does not own: the file
    system, the clock, the storage endpoint. *)

Inductive context : Type := Background.

Class Runtime : Type := {
  error : Type;
  Error : error → string;
  URL : Type;
  URL_String : URL → string;
  Client : Type;
  World : Type;
  (** [os.Stat(name)]: the error result; the [FileInfo] is dropped by the
      callers. *)
  os_Stat : World → string → option error;
  os_IsNotExist : option error → bool;
  (** godotenv's reading and parsing of one file into a key/value map. *)
  godotenv_readFile : World → string → gmap string string + error;
  (** [minioClient.PresignedPutObject(ctx, bucket, object, expires)]:
      the pair [(u, err)] it returns and the world after the call. *)
  minio_PresignedPutObject :
    option Client → context → string → string → time.Duration →
    World → (option URL * option error) * World;
}.

(** ** [github.com/gin-gonic/gin]: the part of [*gin.Context] the handler uses *)

Module gin.
(** [gin.H] is [map[string]any]; every value the handler stores is a
    string. *)
Abbreviation H := (gmap string string).

(** One [c.JSON(code, obj)]: the status code and the object rendered as
    the body. *)
Record Response : Type := { status : Z; body : H }.

Record Context : Type := {
  queryCache : url.Values;     (* the parsed query string of the request *)
  Writer : list Response;      (* what has been written, oldest first *)
}.

(** [c.Query(key)]: the first value of the key if it exists, otherwise
    the empty string.  gin takes [values[0]]; the cache is filled by
    [url.ParseQuery], which stores no empty slice. *)
Definition Query (c : Context) (key : string) : string :=
  url.Get (queryCache c) key.

Definition JSON (c : Context) (code : Z) (obj : H) : Context :=
  {| queryCache := queryCache c;
     Writer := Writer c ++ [ {| status := code; body := obj |} ] |}.
End gin.

(** ** [log]: a logger is its prefix; what it prints is a line of the
    process's log output (the date, time and source position that the
    flags add in front of the text are left out) *)

Module log.
Record Logger : Type := { prefix : string }.
Record Line : Type := { line_prefix : string; line_text : string }.
End log.

Section Program.
Context `{rt : Runtime}.

(** ** The state of the process *)

(** The arguments of one call of [PresignedPutObject]. *)
Record PresignCall : Type := {
  call_client : option Client;
  call_ctx : context;
  call_bucket : string;
  call_object : string;
  call_expires : time.Duration;
}.

(** The calls the process makes to the outside, in the order made. *)
Inductive Event : Type :=
  | EvStat (name : string)
  | EvLoad (filename : string)
  | EvPresign (call : PresignCall).

(** The package variables of [utils]; all nil until [InitLogger] runs. *)
Record Loggers : Type := {
  infoLogger : option log.Logger;
  warningLogger : option log.Logger;
  errorLogger : option log.Logger;
  fatalLogger : option log.Logger;
  debugLogger : option log.Logger;
}.

Record Process : Type := {
  (* package main *)
  minioClient : option Client;
  bucketName : string;
  publicURL : string;
  (* package utils *)
  loggers : Loggers;
  (* the operating system's side of the process *)
  environ : gmap string string;
  output : list log.Line;
  (* the outside, and the calls made to it *)
  world : World;
  trace : list Event;
}.

Definition set_environ (e : gmap string string) (p : Process) : Process :=
  {| minioClient := minioClient p; bucketName := bucketName p;
     publicURL := publicURL p; loggers := loggers p;
     environ := e; output := output p;
     world := world p; trace := trace p |}.

Definition add_output (l : log.Line) (p : Process) : Process :=
  {| minioClient := minioClient p; bucketName := bucketName p;
     publicURL := publicURL p; loggers := loggers p;
     environ := environ p; output := output p ++ [l];
     world := world p; trace := trace p |}.

Definition set_world (w : World) (p : Process) : Process :=
  {| minioClient := minioClient p; bucketName := bucketName p;
     publicURL := publicURL p; loggers := loggers p;
     environ := environ p; output := output p;
     world := w; trace := trace p |}.

Definition add_event (e : Event) (p : Process) : Process :=
  {| minioClient := minioClient p; bucketName := bucketName p;
     publicURL := publicURL p; loggers := loggers p;
     environ := environ p; output := output p;
     world := world p; trace := trace p ++ [e] |}.

(** ** Running Go code: it returns, panics, or exits the process *)

Inductive Outcome (A : Type) : Type :=
  | Returned (a : A)
  | Panicked (msg : string)
  | Exited (code : Z).
Global Arguments Returned {A} a.
Global Arguments Panicked {A} msg.
Global Arguments Exited {A} code.

Definition Outcome_map {A B} (f : A → B) (o : Outcome A) : Outcome B :=
  match o with
  | Returned a => Returned (f a)
  | Panicked msg => Panicked msg
  | Exited code => Exited code
  end.

Definition Go (A : Type) : Type := Process → Outcome A * Process.

Global Instance Go_ret : MRet Go := λ A a p, (Returned a, p).

Global Instance Go_bind : MBind Go := λ A B k m p,
  match m p with
  | (Returned a, p') => k a p'
  | (Panicked msg, p') => (Panicked msg, p')
  | (Exited code, p') => (Exited code, p')
  end.

Definition gets {A} (f : Process → A) : Go A := λ p, (Returned (f p), p).
Definition modify (f : Process → Process) : Go unit := λ p, (Returned (), f p).
Definition panic {A} (msg : string) : Go A := λ p, (Panicked msg, p).

Definition nil_dereference : string :=
  "runtime error: invalid memory address or nil pointer dereference".

(** ** [os] *)

Definition os_Exit {A} (code : Z) : Go A := λ p, (Exited code, p).

(** [os.Getenv(key)]: the value, [""] if the variable is not present. *)
Definition os_Getenv (key : string) : Go string :=
  gets (λ p, default "" (environ p !! key)).

Definition Stat (name : string) : Go (option error) :=
  modify (add_event (EvStat name)) ;;
  gets (λ p, os_Stat (world p) name).

(** ** [godotenv.Load(filename)]: read the file; every variable of it
    that the environment does not have yet is set; variables already
    present keep their value. *)

Definition godotenv_Load (filename : string) : Go (option error) :=
  modify (add_event (EvLoad filename)) ;;
  w ← gets world;
  match godotenv_readFile w filename with
  | inr err => mret (Some err)
  | inl envMap =>
      modify (λ p, set_environ (environ p ∪ envMap) p) ;;
      mret None
  end.

(** ** [minioClient.PresignedPutObject] as the process calls it *)

Definition PresignedPutObject (client : option Client) (ctx : context)
    (bucket object : string) (expires : time.Duration)
  : Go (option URL * option error) :=
  modify (add_event (EvPresign
    {| call_client := client; call_ctx := ctx; call_bucket := bucket;
       call_object := object; call_expires := expires |})) ;;
  w ← gets world;
  let '(result, w') := minio_PresignedPutObject client ctx bucket object expires w in
  modify (set_world w') ;;
  mret result.

(** [u.String()] on a [*url.URL]: a nil pointer is dereferenced. *)
Definition String_ (u : option URL) : Go string :=
  match u with
  | Some u => mret (URL_String u)
  | None => panic nil_dereference
  end.

(** ** [pkg/utils/logger.go] *)

(** [l.Output(calldepth, s)] on a [*log.Logger]. *)
Definition Output (l : option log.Logger) (s : string) : Go unit :=
  match l with
  | Some l =>
      modify (add_output {| log.line_prefix := log.prefix l; log.line_text := s |})
  | None => panic nil_dereference
  end.

Definition LogError (format : string) (args : list string) : Go unit :=
  l ← gets (λ p, errorLogger (loggers p));
  Output l (fmt.Sprintf format args).

Definition LogWarning (format : string) (args : list string) : Go unit :=
  l ← gets (λ p, warningLogger (loggers p));
  Output l (fmt.Sprintf format args).

Definition LogInfo (format : string) (args : list string) : Go unit :=
  l ← gets (λ p, infoLogger (loggers p));
  Output l (fmt.Sprintf format args).

Definition LogDebug (format : string) (args : list string) : Go unit :=
  l ← gets (λ p, debugLogger (loggers p));
  Output l (fmt.Sprintf format args).

Definition LogFatal (format : string) (args : list string) : Go unit :=
  l ← gets (λ p, fatalLogger (loggers p));
  Output l (fmt.Sprintf format args) ;;
  os_Exit 1.

(** [log.Fatal(s)] of the standard library: the standard logger (never
    nil, empty prefix) prints [s], then the process exits with status 1. *)
Definition log_Fatal {A} (s : string) : Go A :=
  Output (Some {| log.prefix := "" |}) s ;;
  os_Exit 1.

(** ** [LoadConfig] *)

Definition LoadConfig : Go unit :=
  env ← os_Getenv "MIRAIO_ENV";
  let env := if String.eqb env "" then "development" else env in
  let envFile := ".env." +:+ env in
  err ← Stat envFile;
  let envFile := if os_IsNotExist err then ".env" else envFile in
  err ← godotenv_Load envFile;
  match err with
  | Some err =>
      LogFatal "Error loading .env file: %v" [Error err] ;;
      os_Exit 1
  | None => mret ()
  end.

(** ** [pkg/main.go]: lines 23 to 36 of [main], which load the
    environment file before anything else is set up *)

Definition main_loadEnv : Go unit :=
  env ← os_Getenv "MIRAIO_ENV";
  let env := if String.eqb env "" then "development" else env in
  let envFile := ".env." +:+ env in
  err ← Stat envFile;
  let envFile := if os_IsNotExist err then ".env" else envFile in
  err ← godotenv_Load envFile;
  match err with
  | Some _ => log_Fatal "Error loading .env file"
  | None => mret ()
  end.

(** ** [presignHandler] (the same text in both entry points) *)

(** The local [reqParams] of the handler, as built by [make(url.Values)]
    and [reqParams.Set("Content-Type", contentType)]. *)
Definition presignHandler_reqParams (contentType : string) : url.Values :=
  url.Set_ url.make_Values "Content-Type" contentType.

Definition presignHandler (c : gin.Context) : Go gin.Context :=
  let filename := gin.Query c "filename" in
  let contentType := gin.Query c "type" in
  if String.eqb filename "" || String.eqb contentType "" then
    mret (gin.JSON c http.StatusBadRequest
            {[ "error" := "Missing filename or type" ]})
  else
    let reqParams := presignHandler_reqParams contentType in
    client ← gets minioClient;
    bucket ← gets bucketName;
    '(presignedURL, err) ←
      PresignedPutObject client Background bucket filename time.Minute;
    match err with
    | Some _ =>
        mret (gin.JSON c http.StatusInternalServerError
                {[ "error" := "Could not generate presigned URL" ]})
    | None =>
        base ← gets publicURL;
        bucket ← gets bucketName;
        let publicFileURL := fmt.Sprintf "%s/%s/%s" [base; bucket; filename] in
        signed ← String_ presignedURL;
        mret (gin.JSON c http.StatusOK
                {[ "url" := signed; "publicUrl" := publicFileURL ]})
    end.

(** ** Notions the properties are stated with *)

(** A query parameter is absent, or present with the empty string as its
    (first) value. *)
Definition absent (c : gin.Context) (key : string) : Prop :=
  gin.queryCache c !! key = None.

Definition empty (c : gin.Context) (key : string) : Prop :=
  ∃ rest, gin.queryCache c !! key = Some ("" :: rest).

(** The handler returned, and wrote exactly one response to the context
    it was given: status [code], the object [obj] as the JSON body. *)
Definition responds (c : gin.Context) (o : Outcome gin.Context)
    (code : Z) (obj : gin.H) : Prop :=
  ∃ c', o = Returned c' ∧
        gin.Writer c' =
          (gin.Writer c ++ [ {| gin.status := code; gin.body := obj |} ])%list.

(** The code did not return: the process ended, by exit or by panic. *)
Definition fatal {A} (o : Outcome A) : Prop :=
  match o with
  | Returned _ => False
  | Panicked _ | Exited _ => True
  end.

(** What the signing client answers to the handler's call in process
    state [p] for the object [filename]. *)
Definition signing_outcome (p : Process) (filename : string)
  : option URL * option error :=
  (minio_PresignedPutObject (minioClient p) Background (bucketName p)
     filename time.Minute (world p)).1.

(** The call the handler is to make for [filename] in process state [p]. *)
Definition presign_call (p : Process) (filename : string) : PresignCall :=
  {| call_client := minioClient p; call_ctx := Background;
     call_bucket := bucketName p; call_object := filename;
     call_expires := time.Minute |}.

(** The configuration the handler reads: the three package variables of
    [main]. *)
Definition same_config (p1 p2 : Process) : Prop :=
  minioClient p1 = minioClient p2 ∧ bucketName p1 = bucketName p2 ∧
  publicURL p1 = publicURL p2.

(** Everything the process itself holds is in [p'] as it is in [p]: the
    package variables of [main] and [utils], the environment, and the
    log output.  (The outside, [world], and the record of calls,
    [trace], are not part of it.) *)
Definition unchanged (p p' : Process) : Prop :=
  minioClient p' = minioClient p ∧ bucketName p' = bucketName p ∧
  publicURL p' = publicURL p ∧ loggers p' = loggers p ∧
  environ p' = environ p ∧ output p' = output p.


(** The name of the deployment environment that configuration loading
    works with in process state [p]. *)
Definition deployment (p : Process) (env : string) : Prop :=
  (environ p !! "MIRAIO_ENV" = None ∧ env = "development") ∨
  (environ p !! "MIRAIO_ENV" = Some env ∧ env ≠ "").

End Program.

(** ** A concrete outside, to run the program on

    Errors and URLs are strings.  The world has a file system (each file
    either parses into variables or is malformed), a storage endpoint that
    is reachable or not, and a clock that each signature advances. *)

Module Demo.
Record outside : Type := {
  files : gmap string (option (gmap string string));
  reachable : bool;
  clock : Z;
}.

Definition ENOENT : string := "no such file or directory".

Definition stat (w : outside) (name : string) : option string :=
  match files w !! name with
  | Some _ => None
  | None => Some ENOENT
  end.

Definition readFile (w : outside) (name : string) : gmap string string + string :=
  match files w !! name with
  | Some (Some vars) => inl vars
  | Some None => inr "unexpected character in variable name"
  | None => inr ENOENT
  end.

Definition sign (client : option string) (ctx : context)
    (bucket object : string) (expires : time.Duration) (w : outside)
  : (option string * option string) * outside :=
  match client with
  | Some endpoint =>
      if reachable w then
        ((Some ("http://" +:+ endpoint +:+ "/" +:+ bucket +:+ "/" +:+ object
                +:+ "?X-Amz-Expires=60"), None),
         {| files := files w; reachable := true; clock := clock w + 1 |})
      else ((None, Some "dial tcp: connection refused"), w)
  | None => ((None, Some "client is nil"), w)
  end.

Definition runtime : Runtime :=
  {| error := string; Error := λ e, e;
     URL := string; URL_String := λ u, u;
     Client := string; World := outside;
     os_Stat := stat;
     os_IsNotExist := λ e, bool_decide (e = Some ENOENT);
     godotenv_readFile := readFile;
     minio_PresignedPutObject := sign |}.

#[local] Existing Instance runtime.

Definition no_loggers : Loggers :=
  {| infoLogger := None; warningLogger := None; errorLogger := None;
     fatalLogger := None; debugLogger := None |}.

Definition all_loggers : Loggers :=
  {| infoLogger := Some {| log.prefix := "INFO: " |};
     warningLogger := Some {| log.prefix := "WARNING: " |};
     errorLogger := Some {| log.prefix := "ERROR: " |};
     fatalLogger := Some {| log.prefix := "FATAL: " |};
     debugLogger := Some {| log.prefix := "DEBUG: " |} |}.

(** The process as [main] leaves it for the handler: bucket [uploads]
    behind [http://localhost:9000]. *)
Definition serving (up : bool) : Process :=
  {| minioClient := Some ("localhost:9000" : Client);
     bucketName := "uploads";
     publicURL := "http://localhost:9000";
     loggers := all_loggers;
     environ := ∅;
     output := [];
     world := {| files := ∅; reachable := up; clock := 0 |};
     trace := [] |}.

(** The process at the start of [main]: nothing set, and only the file
    [.env] on disk, well-formed or not. *)
Definition starting (dotenv : option (option (gmap string string)))
  : Process :=
  {| minioClient := None; bucketName := ""; publicURL := "";
     loggers := no_loggers;
     environ := ∅;
     output := [];
     world := {| files := match dotenv with
                          | Some f => {[ ".env" := f ]}
                          | None => ∅
                          end;
                 reachable := true; clock := 0 |};
     trace := [] |}.

Definition request (query : list (string * string)) : gin.Context :=
  {| gin.queryCache := list_to_map ((λ kv, (kv.1, [kv.2])) <$> query);
     gin.Writer := [] |}.

(** [GET /presign?filename=image.jpg&type=image/jpeg] *)
Definition image_jpeg : gin.Context :=
  request [("filename", "image.jpg"); ("type", "image/jpeg")].


(** [GET /presign?type=text/plain] *)
Definition no_filename : gin.Context :=
  request [("type", "text/plain")].


Definition signed_image : string :=
  "http://localhost:9000/uploads/image.jpg?X-Amz-Expires=60".

Definition refused : string := "dial tcp: connection refused".
End Demo.


(** * Start-up: [InitLogger] and the two [main] functions

    What start-up asks of the outside beyond [Runtime]: directories and
    files, the clock, the construction of the storage client, and the HTTP
    listener. *)

Inductive OpenFlag : Type := O_CREATE | O_WRONLY | O_APPEND.

(** A [*gin.Engine], as far as [main] builds it: the routes registered,
    each a method and a path.  The one handler there is, [presignHandler],
    is what every route of this program leads to. *)
Module engine.
Abbreviation Engine := (list (string * string)).

Definition Default : Engine := [].

Definition GET (router : Engine) (relativePath : string) : Engine :=
  (router ++ [("GET", relativePath)])%list.
End engine.

Class Platform `{rt : Runtime} : Type := {
  (** [os.MkdirAll(path, perm)] *)
  os_MkdirAll : string → Z → World → option error * World;
  (** [os.OpenFile(name, flag, perm)]: the error result; the file itself
      is only ever written to by the loggers. *)
  os_OpenFile : string → list OpenFlag → Z → World → option error * World;
  (** [time.Now().Format(layout)] *)
  time_Now_Format : string → World → string;
  (** [filepath.Join(dir, name)] *)
  filepath_Join : string → string → string;
  (** [minio.New(endpoint, &minio.Options{Creds:
      credentials.NewStaticV4(id, secret, token), Secure: secure})] *)
  minio_New :
    string → string → string → string → bool → World →
    option Client * option error;
  (** [router.Run(addr)]: it serves until the listener fails, and returns
      the error.  What is served meanwhile is not unfolded here. *)
  gin_Run : engine.Engine → string → World → option error * World;
}.

Section Startup.
Context `{pf : Platform}.

Definition set_loggers (l : Loggers) (p : Process) : Process :=
  {| minioClient := minioClient p; bucketName := bucketName p;
     publicURL := publicURL p; loggers := l;
     environ := environ p; output := output p;
     world := world p; trace := trace p |}.

Definition set_minioClient (client : option Client) (p : Process) : Process :=
  {| minioClient := client; bucketName := bucketName p;
     publicURL := publicURL p; loggers := loggers p;
     environ := environ p; output := output p;
     world := world p; trace := trace p |}.

Definition set_bucketName (name : string) (p : Process) : Process :=
  {| minioClient := minioClient p; bucketName := name;
     publicURL := publicURL p; loggers := loggers p;
     environ := environ p; output := output p;
     world := world p; trace := trace p |}.

Definition set_publicURL (u : string) (p : Process) : Process :=
  {| minioClient := minioClient p; bucketName := bucketName p;
     publicURL := u; loggers := loggers p;
     environ := environ p; output := output p;
     world := world p; trace := trace p |}.

(** The calls of start-up to the outside, in the order made. *)
Inductive Call : Type :=
  | CallMkdirAll (path : string) (perm : Z)
  | CallOpenFile (name : string) (flag : list OpenFlag) (perm : Z)
  | CallNew (endpoint accessKeyID secretAccessKey token : string) (secure : bool)
  | CallRun (router : engine.Engine) (addr : string).

(** The process together with what [fmt] has printed on standard output
    (the loggers' lines are in [output]) and the calls of start-up. *)
Record Host : Type := {
  process : Process;
  stdout : list string;
  calls : list Call;
}.

Definition Boot (A : Type) : Type := Host → Outcome A * Host.

Global Instance Boot_ret : MRet Boot := λ A a h, (Returned a, h).

Global Instance Boot_bind : MBind Boot := λ A B k m h,
  match m h with
  | (Returned a, h') => k a h'
  | (Panicked msg, h') => (Panicked msg, h')
  | (Exited code, h') => (Exited code, h')
  end.

(** Code of the process proper, run inside the host. *)
Definition lift {A} (m : Go A) : Boot A := λ h,
  let '(o, p') := m (process h) in
  (o, {| process := p'; stdout := stdout h; calls := calls h |}).

Definition add_call (c : Call) (h : Host) : Host :=
  {| process := process h; stdout := stdout h; calls := calls h ++ [c] |}.

Definition add_stdout (s : string) (h : Host) : Host :=
  {| process := process h; stdout := stdout h ++ [s]; calls := calls h |}.

(** An oracle of the outside, called from the host: the call is recorded,
    the world replaced by the one the oracle leaves. *)
Definition outside {A} (c : Call) (f : World → A * World) : Boot A := λ h,
  let '(a, w') := f (world (process h)) in
  (Returned a,
   add_call c {| process := set_world w' (process h);
                 stdout := stdout h; calls := calls h |}).

Definition newline : string := String "010"%char "".

(** [fmt.Printf(format, args...)] and [fmt.Println(s)] on standard output. *)
Definition Printf (format : string) (args : list string) : Boot unit :=
  λ h, (Returned (), add_stdout (fmt.Sprintf format args) h).

Definition Println (s : string) : Boot unit :=
  λ h, (Returned (), add_stdout (s +:+ newline) h).

(** [%v] of an [error] that may be nil, and [fmt.Sprint] of one. *)
Definition error_text (err : option error) : string :=
  match err with
  | Some err => Error err
  | None => "<nil>"
  end.

Definition MkdirAll (path : string) (perm : Z) : Boot (option error) :=
  outside (CallMkdirAll path perm) (os_MkdirAll path perm).

Definition OpenFile (name : string) (flag : list OpenFlag) (perm : Z)
  : Boot (option error) :=
  outside (CallOpenFile name flag perm) (os_OpenFile name flag perm).

Definition New (endpoint accessKeyID secretAccessKey token : string)
    (secure : bool) : Boot (option Client * option error) :=
  outside (CallNew endpoint accessKeyID secretAccessKey token secure)
    (λ w, (minio_New endpoint accessKeyID secretAccessKey token secure w, w)).

Definition Run (router : engine.Engine) (addr : string) : Boot (option error) :=
  outside (CallRun router addr) (gin_Run router addr).

(** Octal file modes [0755] and [0666]. *)
Definition mode_0755 : Z := 7 * 64 + 5 * 8 + 5.
Definition mode_0666 : Z := 6 * 64 + 6 * 8 + 6.

(** ** [pkg/utils/logger.go]: [InitLogger] and [Flush] *)

Definition InitLogger : Boot unit :=
  logDir ← lift (os_Getenv "MIRAIO_LOG_DIR");
  let logDir := if String.eqb logDir "" then "/var/log/miraio" else logDir in
  err ← MkdirAll logDir mode_0755;
  match err with
  | Some err =>
      Printf ("Failed to create log directory: %v" +:+ newline) [Error err] ;;
      lift (os_Exit 1)
  | None =>
      timestamp ← lift (gets (λ p, time_Now_Format "2006-01-02-15-04-05" (world p)));
      let logFile :=
        filepath_Join logDir (fmt.Sprintf "server-%s.log" [timestamp]) in
      err ← OpenFile logFile [O_CREATE; O_WRONLY; O_APPEND] mode_0666;
      match err with
      | Some err =>
          Printf ("Failed to open log file: %v" +:+ newline) [Error err] ;;
          lift (os_Exit 1)
      | None =>
          lift (modify (set_loggers
            {| infoLogger := Some {| log.prefix := "INFO: " |};
               warningLogger := Some {| log.prefix := "WARNING: " |};
               errorLogger := Some {| log.prefix := "ERROR: " |};
               fatalLogger := Some {| log.prefix := "FATAL: " |};
               debugLogger := Some {| log.prefix := "DEBUG: " |} |})) ;;
          l ← lift (gets (λ p, infoLogger (loggers p)));
          lift (Output l
                  (fmt.Sprintf "Logger initialized with log file: %s" [logFile]))
      end
  end.

Definition Flush : Go unit := mret ().

(** ** [main] of the entry point with [LoadConfig] *)

Definition main : Boot unit :=
  lift LoadConfig ;;
  InitLogger ;;
  endpoint ← lift (os_Getenv "MIRAIO_MINIO_ENDPOINT");
  accessKeyID ← lift (os_Getenv "MIRAIO_MINIO_ACCESS_KEY");
  secretAccessKey ← lift (os_Getenv "MIRAIO_MINIO_SECRET_KEY");
  ssl ← lift (os_Getenv "MIRAIO_MINIO_USE_SSL");
  let useSSL := String.eqb ssl "true" in
  bucket ← lift (os_Getenv "MIRAIO_MINIO_BUCKET");
  lift (modify (set_bucketName bucket)) ;;
  public ← lift (os_Getenv "MIRAIO_MINIO_PUBLIC_URL");
  lift (modify (set_publicURL public)) ;;
  '(client, err) ← New endpoint accessKeyID secretAccessKey "" useSSL;
  lift (modify (set_minioClient client)) ;;
  match err with
  | Some err =>
      lift (LogFatal "Error initializing MinIO client: %v" [Error err]) ;;
      lift (os_Exit 1)
  | None =>
      let router := engine.Default in
      let router := engine.GET router "/presign" in
      port ← lift (os_Getenv "MIRAIO_PORT");
      let port := if String.eqb port "" then "9080" else port in
      lift (LogInfo "Server running on %s" [port]) ;;
      err ← Run router (":" +:+ port);
      lift (LogFatal "Error starting server: %v" [error_text err])
  end.

(** ** [main] of [pkg/main.go] *)

Definition pkg_main : Boot unit :=
  lift main_loadEnv ;;
  endpoint ← lift (os_Getenv "MINIO_ENDPOINT");
  accessKeyID ← lift (os_Getenv "MINIO_ACCESS_KEY");
  secretAccessKey ← lift (os_Getenv "MINIO_SECRET_KEY");
  ssl ← lift (os_Getenv "MINIO_USE_SSL");
  let useSSL := String.eqb ssl "true" in
  bucket ← lift (os_Getenv "MINIO_BUCKET");
  lift (modify (set_bucketName bucket)) ;;
  public ← lift (os_Getenv "MINIO_PUBLIC_URL");
  lift (modify (set_publicURL public)) ;;
  '(client, err) ← New endpoint accessKeyID secretAccessKey "" useSSL;
  lift (modify (set_minioClient client)) ;;
  match err with
  | Some err =>
      (* log.Fatalln(err): the text is fmt.Sprintln(err) *)
      lift (log_Fatal (Error err +:+ newline))
  | None =>
      let router := engine.Default in
      let router := engine.GET router "/presign" in
      Println "Server running on :5000" ;;
      err ← Run router ":5000";
      (* log.Fatal(err): the text is fmt.Sprint(err) *)
      lift (log_Fatal (error_text err))
  end.

(** ** Notions the properties of start-up are stated with *)

(** The loggers as [InitLogger] sets them. *)
Definition initialized_loggers : Loggers :=
  {| infoLogger := Some {| log.prefix := "INFO: " |};
     warningLogger := Some {| log.prefix := "WARNING: " |};
     errorLogger := Some {| log.prefix := "ERROR: " |};
     fatalLogger := Some {| log.prefix := "FATAL: " |};
     debugLogger := Some {| log.prefix := "DEBUG: " |} |}.

(** The loggers before [InitLogger] has run: the zero values. *)
Definition nil_loggers : Loggers :=
  {| infoLogger := None; warningLogger := None; errorLogger := None;
     fatalLogger := None; debugLogger := None |}.

(** What [os.Getenv] gives in process state [p]. *)
Definition getenv (p : Process) (key : string) : string :=
  default "" (environ p !! key).

(** The value start-up works with for a variable that has a default: the
    default when the variable is unset or empty, its value otherwise. *)
Definition or_default (p : Process) (key fallback value : string) : Prop :=
  (getenv p key = "" ∧ value = fallback) ∨
  (getenv p key = value ∧ value ≠ "").

(** The host after a step of the process proper that led to [p']. *)
Definition with_process (h : Host) (p' : Process) : Host :=
  {| process := p'; stdout := stdout h; calls := calls h |}.

(** Code that ends the process, by exit or by panic, from every state. *)
Definition never_returns {A} (m : Boot A) : Prop :=
  ∀ h : Host, fatal (m h).1.

End Startup.

(** ** The concrete outside, for start-up *)

Module DemoBoot.
#[local] Existing Instance Demo.runtime.

(** A path taken by a file cannot be made a directory. *)
Definition mkdirAll (path : string) (perm : Z) (w : Demo.outside)
  : option string * Demo.outside :=
  match Demo.files w !! path with
  | Some _ => (Some ("mkdir " +:+ path +:+ ": not a directory"), w)
  | None => (None, w)
  end.

(** A malformed file cannot be opened either. *)
Definition openFile (name : string) (flag : list OpenFlag) (perm : Z)
    (w : Demo.outside) : option string * Demo.outside :=
  match Demo.files w !! name with
  | Some None => (Some ("open " +:+ name +:+ ": permission denied"), w)
  | _ => (None, w)
  end.

Definition new (endpoint accessKeyID secretAccessKey token : string)
    (secure : bool) (w : Demo.outside) : option string * option string :=
  if String.eqb endpoint "" then (None, Some "Endpoint url cannot be empty.")
  else (Some endpoint, None).

Definition run (router : engine.Engine) (addr : string) (w : Demo.outside)
  : option string * Demo.outside :=
  (Some ("listen tcp " +:+ addr +:+ ": bind: address already in use"), w).

Definition platform : @Platform Demo.runtime :=
  {| os_MkdirAll := mkdirAll;
     os_OpenFile := openFile;
     time_Now_Format := λ _ _, "2025-01-31-12-00-00";
     filepath_Join := λ dir name, dir +:+ "/" +:+ name;
     minio_New := new;
     gin_Run := run |}.

(** The process at the start of [main], in an environment and on a file
    system. *)
Definition fresh (env : gmap string string)
    (files : gmap string (option (gmap string string))) : Process :=
  {| minioClient := None; bucketName := ""; publicURL := "";
     loggers := Demo.no_loggers;
     environ := env;
     output := [];
     world := {| Demo.files := files; Demo.reachable := true; Demo.clock := 0 |};
     trace := [] |}.

Definition booting (env : gmap string string)
    (files : gmap string (option (gmap string string))) : Host :=
  {| process := fresh env files; stdout := []; calls := [] |}.

Definition dotenv : gmap string string :=
  list_to_map
    [("MIRAIO_MINIO_ENDPOINT", "localhost:9000");
     ("MIRAIO_MINIO_ACCESS_KEY", "minio");
     ("MIRAIO_MINIO_SECRET_KEY", "minio123");
     ("MIRAIO_MINIO_USE_SSL", "false");
     ("MIRAIO_MINIO_BUCKET", "uploads");
     ("MIRAIO_MINIO_PUBLIC_URL", "http://localhost:9000");
     ("MIRAIO_LOG_DIR", "/tmp/miraio")].

(** The same without an endpoint: the client cannot be constructed. *)
Definition dotenv_no_endpoint : gmap string string :=
  delete "MIRAIO_MINIO_ENDPOINT" dotenv.

(** The variables as [pkg/main.go] reads them. *)
Definition pkg_dotenv : gmap string string :=
  list_to_map
    [("MINIO_ENDPOINT", "localhost:9000");
     ("MINIO_ACCESS_KEY", "minio");
     ("MINIO_SECRET_KEY", "minio123");
     ("MINIO_USE_SSL", "true");
     ("MINIO_BUCKET", "uploads");
     ("MINIO_PUBLIC_URL", "http://localhost:9000")].

Definition log_file : string :=
  "/tmp/miraio/server-2025-01-31-12-00-00.log".

#[local] Existing Instance platform.

(** A start with a well-formed [.env]; the host after [LoadConfig]; the
    host after [InitLogger]. *)
Definition start : Host := booting ∅ {[ ".env" := Some dotenv ]}.
Definition loaded : Host := (lift LoadConfig start).2.
Definition logging : Host := (InitLogger loaded).2.

(** The same three with a [.env] that names no endpoint. *)
Definition start_no_endpoint : Host :=
  booting ∅ {[ ".env" := Some dotenv_no_endpoint ]}.
Definition loaded_no_endpoint : Host := (lift LoadConfig start_no_endpoint).2.
Definition logging_no_endpoint : Host := (InitLogger loaded_no_endpoint).2.

(** The same three with [MIRAIO_MINIO_USE_SSL=TRUE], in capitals. *)
Definition start_upper : Host :=
  booting ∅ {[ ".env" := Some (<["MIRAIO_MINIO_USE_SSL" := "TRUE"]> dotenv) ]}.
Definition loaded_upper : Host := (lift LoadConfig start_upper).2.
Definition logging_upper : Host := (InitLogger loaded_upper).2.

(** A start of [pkg/main.go], with a port in the environment that it does
    not read. *)
Definition pkg_start : Host :=
  booting {[ "MIRAIO_PORT" := "8000" ]} {[ ".env" := Some pkg_dotenv ]}.
Definition pkg_loaded : Process := (main_loadEnv (process pkg_start)).2.

Definition in_use (addr : string) : string :=
  "listen tcp " +:+ addr +:+ ": bind: address already in use".
End DemoBoot.

(** * Properties *)

Section Properties.
Context `{rt : Runtime}.
Implicit Types (c : gin.Context) (p : Process).

(** ** Auxiliary facts *)

Lemma append_empty_r (s : string) : s +:+ "" = s.
Proof.
  induction s as [|a s IH]; [done |].
  change (String a (s +:+ "") = String a s). by rewrite IH.
Qed.

Lemma Sprintf_three (a b c : string) :
  fmt.Sprintf "%s/%s/%s" [a; b; c] = a +:+ "/" +:+ b +:+ "/" +:+ c.
Proof. simpl. by rewrite append_empty_r. Qed.

Example Sprintf_public_url :
  fmt.Sprintf "%s/%s/%s" ["http://localhost:9000"; "uploads"; "image.jpg"]
  = "http://localhost:9000/uploads/image.jpg".
Proof. reflexivity. Qed.

Example Sprintf_missing_operand :
  fmt.Sprintf "%s/%s" ["a"] = "a/%!s(MISSING)".
Proof. reflexivity. Qed.

Example Sprintf_extra_operand :
  fmt.Sprintf "%v" ["a"; "b"] = "a%!(EXTRA string=b)".
Proof. reflexivity. Qed.

Lemma eqb_empty_false (s : string) : s ≠ "" → String.eqb s "" = false.
Proof. intros Hs. by apply String.eqb_neq. Qed.

Lemma Query_absent c key : absent c key → gin.Query c key = "".
Proof. unfold absent, gin.Query, url.Get. by intros ->. Qed.

Lemma Query_empty c key : empty c key → gin.Query c key = "".
Proof. unfold empty, gin.Query, url.Get. by intros [rest ->]. Qed.

(** The two paths of the handler, as equations. *)

Lemma presignHandler_rejects c p :
  gin.Query c "filename" = "" ∨ gin.Query c "type" = "" →
  presignHandler c p =
    (Returned (gin.JSON c http.StatusBadRequest
                 {[ "error" := "Missing filename or type" ]}), p).
Proof.
  intros Hq. unfold presignHandler.
  destruct Hq as [-> | ->]; simpl; [done |].
  by rewrite orb_true_r.
Qed.

Lemma presignHandler_accepts c p :
  gin.Query c "filename" ≠ "" → gin.Query c "type" ≠ "" →
  presignHandler c p =
    let filename := gin.Query c "filename" in
    let answer := minio_PresignedPutObject (minioClient p) Background
                    (bucketName p) filename time.Minute (world p) in
    let p' := set_world answer.2
                (add_event (EvPresign (presign_call p filename)) p) in
    match answer.1 with
    | (_, Some _) =>
        (Returned (gin.JSON c http.StatusInternalServerError
                     {[ "error" := "Could not generate presigned URL" ]}), p')
    | (Some u, None) =>
        (Returned (gin.JSON c http.StatusOK
                     {[ "url" := URL_String u;
                        "publicUrl" := publicURL p +:+ "/" +:+ bucketName p
                                       +:+ "/" +:+ filename ]}), p')
    | (None, None) => (Panicked nil_dereference, p')
    end.
Proof.
  intros Hf Ht. unfold presignHandler.
  rewrite (eqb_empty_false _ Hf), (eqb_empty_false _ Ht). cbn [orb].
  unfold PresignedPutObject, presign_call, mbind, Go_bind, gets, modify, mret, Go_ret.
  cbn [fst snd].
  destruct (minio_PresignedPutObject _ _ _ _ _ _) as [[[u|] [e|]] w']; cbn; try done.
  by rewrite append_empty_r.
Qed.

Lemma missing_Query c :
  absent c "filename" ∨ empty c "filename" ∨
  absent c "type" ∨ empty c "type" →
  gin.Query c "filename" = "" ∨ gin.Query c "type" = "".
Proof.
  intros [H | [H | [H | H]]];
    eauto using Query_absent, Query_empty.
Qed.

Lemma responds_JSON c code obj :
  responds c (Returned (gin.JSON c code obj)) code obj.
Proof. by exists (gin.JSON c code obj). Qed.

(** What the accepting path leaves behind in the process, whatever the
    signing client answers. *)
Lemma presignHandler_accepts_state c p :
  gin.Query c "filename" ≠ "" → gin.Query c "type" ≠ "" →
  (presignHandler c p).2 =
    set_world
      (minio_PresignedPutObject (minioClient p) Background (bucketName p)
         (gin.Query c "filename") time.Minute (world p)).2
      (add_event (EvPresign (presign_call p (gin.Query c "filename"))) p).
Proof.
  intros Hf Ht. rewrite (presignHandler_accepts c p Hf Ht). cbv zeta.
  by destruct (minio_PresignedPutObject _ _ _ _ _ _).1 as [[u|] [e|]].
Qed.

Lemma presignHandler_failure c p (u : option URL) (err : error) :
  gin.Query c "filename" ≠ "" → gin.Query c "type" ≠ "" →
  signing_outcome p (gin.Query c "filename") = (u, Some err) →
  (presignHandler c p).1 =
    Returned (gin.JSON c http.StatusInternalServerError
                {[ "error" := "Could not generate presigned URL" ]}).
Proof.
  intros Hf Ht Hsig. rewrite (presignHandler_accepts c p Hf Ht). cbv zeta.
  unfold signing_outcome in Hsig. rewrite Hsig. by destruct u.
Qed.

Lemma presignHandler_success c p (u : URL) :
  gin.Query c "filename" ≠ "" → gin.Query c "type" ≠ "" →
  signing_outcome p (gin.Query c "filename") = (Some u, None) →
  (presignHandler c p).1 =
    Returned (gin.JSON c http.StatusOK
                {[ "url" := URL_String u;
                   "publicUrl" := publicURL p +:+ "/" +:+ bucketName p
                                  +:+ "/" +:+ gin.Query c "filename" ]}).
Proof.
  intros Hf Ht Hsig. rewrite (presignHandler_accepts c p Hf Ht). cbv zeta.
  unfold signing_outcome in Hsig. by rewrite Hsig.
Qed.

Lemma responds_inv c code obj code' obj' :
  responds c (Returned (gin.JSON c code obj)) code' obj' →
  code' = code ∧ obj' = obj.
Proof.
  intros (c' & [= <-] & Hw). cbn in Hw.
  apply app_inv_head in Hw. by injection Hw.
Qed.


Lemma presignHandler_frame c p : unchanged p (presignHandler c p).2.
Proof.
  destruct (decide (gin.Query c "filename" = "")) as [Hf | Hf].
  { rewrite presignHandler_rejects by auto. by repeat split. }
  destruct (decide (gin.Query c "type" = "")) as [Ht | Ht].
  { rewrite presignHandler_rejects by auto. by repeat split. }
  rewrite presignHandler_accepts_state by done. by repeat split.
Qed.

(** ** The handler *)

(** C1.  Whenever the query parameter [filename] or the query parameter
    [type] is absent or is the empty string, the handler answers with
    status 400 and the JSON object whose only field, [error], is
    "Missing filename or type". *)
Theorem presign_missing_parameter_400 c p :
  absent c "filename" ∨ empty c "filename" ∨
  absent c "type" ∨ empty c "type" →
  responds c (presignHandler c p).1 400
    {[ "error" := "Missing filename or type" ]}.
Proof.
  intros Hq%missing_Query.
  rewrite (presignHandler_rejects c p Hq). apply responds_JSON.
Qed.

(** C2.  With [filename] and [type] both non-empty, if the signing client
    returns the URL [u] and no error, the handler answers with status 200
    and a JSON object whose field [url] is [u.String()] and whose field
    [publicUrl] is the public base URL, "/", the bucket name, "/" and the
    filename, joined as they are. *)
Theorem presign_success_200 c p (u : URL) :
  gin.Query c "filename" ≠ "" → gin.Query c "type" ≠ "" →
  signing_outcome p (gin.Query c "filename") = (Some u, None) →
  ∃ obj : gin.H,
    responds c (presignHandler c p).1 200 obj ∧
    obj !! "url" = Some (URL_String u) ∧
    obj !! "publicUrl" =
      Some (publicURL p +:+ "/" +:+ bucketName p +:+ "/" +:+ gin.Query c "filename").
Proof.
  intros Hf Ht Hsig. rewrite (presignHandler_success c p u Hf Ht Hsig).
  eexists. split; [apply responds_JSON |].
  split; by simplify_map_eq.
Qed.

(** C3.  With [filename] and [type] both non-empty, if the signing client
    returns an error, the handler answers with status 500 and the JSON
    object whose only field, [error], is "Could not generate presigned
    URL": the same object for every error value, so nothing of the error
    is in the body. *)
Theorem presign_failure_500 c p (u : option URL) (err : error) :
  gin.Query c "filename" ≠ "" → gin.Query c "type" ≠ "" →
  signing_outcome p (gin.Query c "filename") = (u, Some err) →
  responds c (presignHandler c p).1 500
    {[ "error" := "Could not generate presigned URL" ]}.
Proof.
  intros Hf Ht Hsig. rewrite (presignHandler_failure c p u err Hf Ht Hsig).
  apply responds_JSON.
Qed.

(** C4.  With [filename] and [type] both non-empty, the handler makes one
    call to the signing client: [PresignedPutObject] on the configured
    client, for the configured bucket, the object key equal to the
    filename, and an expiry of one minute (60 * 10^9 nanoseconds). *)
Theorem presign_call_made c p :
  gin.Query c "filename" ≠ "" → gin.Query c "type" ≠ "" →
  trace (presignHandler c p).2 =
    (trace p ++
     [EvPresign {| call_client := minioClient p;
                   call_ctx := Background;
                   call_bucket := bucketName p;
                   call_object := gin.Query c "filename";
                   call_expires := 60 * 1000000000 |}])%list
  ∧ time.Minute = 60 * time.Second.
Proof.
  intros Hf Ht. by rewrite (presignHandler_accepts_state c p Hf Ht).
Qed.

(** C5 (as amended).  With [filename] and [type] both non-empty, when the
    signing client returns an error the handler writes nothing to the log
    output: the error value is dropped, and the caller gets the generic
    500 answer. *)
Theorem presign_failure_not_logged c p (u : option URL) (err : error) :
  gin.Query c "filename" ≠ "" → gin.Query c "type" ≠ "" →
  signing_outcome p (gin.Query c "filename") = (u, Some err) →
  output (presignHandler c p).2 = output p ∧
  responds c (presignHandler c p).1 500
    {[ "error" := "Could not generate presigned URL" ]}.
Proof.
  intros Hf Ht Hsig. split.
  - by rewrite (presignHandler_accepts_state c p Hf Ht).
  - rewrite (presignHandler_failure c p u err Hf Ht Hsig).
    apply responds_JSON.
Qed.


(** C7.  A request rejected by validation leaves the process exactly as
    it was: no call to the signing client (nothing added to the record of
    calls), no line in the log output, and the 400 answer is all that
    happens. *)
Theorem presign_rejection_is_local c p :
  absent c "filename" ∨ empty c "filename" ∨
  absent c "type" ∨ empty c "type" →
  (presignHandler c p).2 = p ∧
  trace (presignHandler c p).2 = trace p ∧
  output (presignHandler c p).2 = output p ∧
  responds c (presignHandler c p).1 400
    {[ "error" := "Missing filename or type" ]}.
Proof.
  intros Hq%missing_Query.
  rewrite (presignHandler_rejects c p Hq). cbn [fst snd].
  repeat split; [apply responds_JSON].
Qed.

(** C8.  Two runs of the handler under the same configuration, with the
    same [filename] and [type], on contexts that have the same responses
    written so far, and to which the signing client gives the same
    answer, end the same way and leave the same responses; and a run
    changes none of the package variables, the environment or the log
    output. *)
Theorem presign_is_pure c1 c2 p1 p2 :
  same_config p1 p2 →
  gin.Query c1 "filename" = gin.Query c2 "filename" →
  gin.Query c1 "type" = gin.Query c2 "type" →
  gin.Writer c1 = gin.Writer c2 →
  signing_outcome p1 (gin.Query c1 "filename") =
    signing_outcome p2 (gin.Query c2 "filename") →
  Outcome_map gin.Writer (presignHandler c1 p1).1 =
    Outcome_map gin.Writer (presignHandler c2 p2).1 ∧
  unchanged p1 (presignHandler c1 p1).2 ∧
  unchanged p2 (presignHandler c2 p2).2.
Proof.
  intros (Hc & Hb & Hu) Hfn Hty Hw Hsig.
  split; [| split; apply presignHandler_frame].
  destruct (decide (gin.Query c1 "filename" = "")) as [Hf | Hf].
  { rewrite (presignHandler_rejects c1 p1) by auto.
    rewrite (presignHandler_rejects c2 p2) by (left; by rewrite <- Hfn).
    cbn. by rewrite Hw. }
  destruct (decide (gin.Query c1 "type" = "")) as [Ht | Ht].
  { rewrite (presignHandler_rejects c1 p1) by auto.
    rewrite (presignHandler_rejects c2 p2) by (right; by rewrite <- Hty).
    cbn. by rewrite Hw. }
  rewrite (presignHandler_accepts c1 p1) by done.
  rewrite (presignHandler_accepts c2 p2) by (by rewrite <- ?Hfn, <- ?Hty).
  cbv zeta. unfold signing_outcome in Hsig. rewrite <- Hsig.
  destruct (minio_PresignedPutObject _ _ _ _ _ (world p1)).1 as [[u|] [e|]];
    cbn; by rewrite ?Hw, ?Hb, ?Hu, ?Hfn.
Qed.


(** ** Configuration loading *)

Lemma deployment_Getenv p env :
  deployment p env →
  (if String.eqb (default "" (environ p !! "MIRAIO_ENV")) ""
   then "development" else default "" (environ p !! "MIRAIO_ENV")) = env.
Proof.
  intros [[-> ->] | [-> Hne]]; [done |].
  unfold default. cbn [from_option id].
  by rewrite (eqb_empty_false _ Hne).
Qed.

(** [LoadConfig] run from start to end: which file it loads, and how it
    ends. *)
Lemma LoadConfig_run p env :
  deployment p env →
  LoadConfig p =
    let first := ".env." +:+ env in
    let envFile :=
      if os_IsNotExist (os_Stat (world p) first) then ".env" else first in
    let p1 := add_event (EvLoad envFile) (add_event (EvStat first) p) in
    match godotenv_readFile (world p) envFile with
    | inl vars => (Returned (), set_environ (environ p ∪ vars) p1)
    | inr err =>
        match fatalLogger (loggers p) with
        | Some l =>
            (Exited 1,
             add_output {| log.line_prefix := log.prefix l;
                           log.line_text :=
                             "Error loading .env file: " +:+ Error err |} p1)
        | None => (Panicked nil_dereference, p1)
        end
    end.
Proof.
  intros Henv. unfold LoadConfig, os_Getenv, Stat, godotenv_Load, LogFatal,
    Output, os_Exit, panic, mbind, Go_bind, gets, modify, mret, Go_ret.
  cbn [fst snd world add_event environ loggers].
  rewrite (deployment_Getenv p env Henv). cbv zeta.
  destruct (godotenv_readFile (world p) _) as [vars | err];
    cbn; [done |].
  destruct (fatalLogger (loggers p)) as [l |]; cbn; [| done].
  by rewrite append_empty_r.
Qed.

Lemma main_loadEnv_run p env :
  deployment p env →
  main_loadEnv p =
    let first := ".env." +:+ env in
    let envFile :=
      if os_IsNotExist (os_Stat (world p) first) then ".env" else first in
    let p1 := add_event (EvLoad envFile) (add_event (EvStat first) p) in
    match godotenv_readFile (world p) envFile with
    | inl vars => (Returned (), set_environ (environ p ∪ vars) p1)
    | inr err =>
        (Exited 1,
         add_output {| log.line_prefix := "";
                       log.line_text := "Error loading .env file" |} p1)
    end.
Proof.
  intros Henv. unfold main_loadEnv, os_Getenv, Stat, godotenv_Load,
    log_Fatal, Output, os_Exit, mbind, Go_bind, gets, modify, mret, Go_ret.
  cbn [fst snd world add_event environ loggers].
  rewrite (deployment_Getenv p env Henv). cbv zeta.
  by destruct (godotenv_readFile (world p) _) as [vars | err]; cbn.
Qed.

(** The two when the file of the environment does not exist. *)
Lemma LoadConfig_fallback p env :
  deployment p env →
  os_IsNotExist (os_Stat (world p) (".env." +:+ env)) = true →
  LoadConfig p =
    let p1 := add_event (EvLoad ".env")
                (add_event (EvStat (".env." +:+ env)) p) in
    match godotenv_readFile (world p) ".env" with
    | inl vars => (Returned (), set_environ (environ p ∪ vars) p1)
    | inr err =>
        match fatalLogger (loggers p) with
        | Some l =>
            (Exited 1,
             add_output {| log.line_prefix := log.prefix l;
                           log.line_text :=
                             "Error loading .env file: " +:+ Error err |} p1)
        | None => (Panicked nil_dereference, p1)
        end
    end.
Proof.
  intros Henv Hne. rewrite (LoadConfig_run p env Henv). cbv zeta.
  by rewrite Hne.
Qed.

Lemma main_loadEnv_fallback p env :
  deployment p env →
  os_IsNotExist (os_Stat (world p) (".env." +:+ env)) = true →
  main_loadEnv p =
    let p1 := add_event (EvLoad ".env")
                (add_event (EvStat (".env." +:+ env)) p) in
    match godotenv_readFile (world p) ".env" with
    | inl vars => (Returned (), set_environ (environ p ∪ vars) p1)
    | inr err =>
        (Exited 1,
         add_output {| log.line_prefix := "";
                       log.line_text := "Error loading .env file" |} p1)
    end.
Proof.
  intros Henv Hne. rewrite (main_loadEnv_run p env Henv). cbv zeta.
  by rewrite Hne.
Qed.

(** When the file of the environment is there (or cannot be examined for
    another reason), it is the one loaded, and there is no second try. *)
Lemma LoadConfig_no_fallback p env :
  deployment p env →
  os_IsNotExist (os_Stat (world p) (".env." +:+ env)) = false →
  trace (LoadConfig p).2 =
    (trace p ++ [EvStat (".env." +:+ env); EvLoad (".env." +:+ env)])%list ∧
  (fatal (LoadConfig p).1 ↔
     ∃ err, godotenv_readFile (world p) (".env." +:+ env) = inr err).
Proof.
  intros Henv Hex. rewrite (LoadConfig_run p env Henv). cbv zeta.
  rewrite Hex.
  destruct (godotenv_readFile (world p) _) as [vars | err].
  - cbn. rewrite <- app_assoc. split; [done |].
    split; [done | by intros [err [=]]].
  - destruct (fatalLogger (loggers p)); cbn; rewrite <- app_assoc;
      (split; [done | split; [by eexists | done]]).
Qed.

(** C10.  The environment name is "development" when [MIRAIO_ENV] is
    unset.  When the file [.env.<environment>] does not exist, the loader
    asks for that file, then loads [.env]; and the process ends there
    (it does not return from loading) exactly when loading [.env] fails.
    The same holds of [LoadConfig] and of the start of [main] in
    [pkg/main.go]. *)
Theorem config_default_and_fallback p env :
  deployment p env →
  os_IsNotExist (os_Stat (world p) (".env." +:+ env)) = true →
  (trace (LoadConfig p).2 =
     (trace p ++ [EvStat (".env." +:+ env); EvLoad ".env"])%list ∧
   (fatal (LoadConfig p).1 ↔
      ∃ err, godotenv_readFile (world p) ".env" = inr err)) ∧
  (trace (main_loadEnv p).2 =
     (trace p ++ [EvStat (".env." +:+ env); EvLoad ".env"])%list ∧
   ((main_loadEnv p).1 = Exited 1 ↔
      ∃ err, godotenv_readFile (world p) ".env" = inr err) ∧
   ((main_loadEnv p).1 = Returned () ↔
      ∃ vars, godotenv_readFile (world p) ".env" = inl vars)).
Proof.
  intros Henv Hne. split.
  - rewrite (LoadConfig_fallback p env Henv Hne). cbv zeta.
    destruct (godotenv_readFile (world p) ".env") as [vars | err].
    + cbn. rewrite <- app_assoc. split; [done |].
      split; [done | by intros [err [=]]].
    + destruct (fatalLogger (loggers p)); cbn; rewrite <- app_assoc;
        (split; [done | split; [by eexists | done]]).
  - rewrite (main_loadEnv_fallback p env Henv Hne). cbv zeta.
    destruct (godotenv_readFile (world p) ".env") as [vars | err];
      cbn; rewrite <- app_assoc.
    + split; [done |]. split; split; try done.
      * by intros [err [=]].
      * by eexists.
    + split; [done |]. split; split; try done.
      * by eexists.
      * by intros [vars [=]].
Qed.
End Properties.

(** * The properties on the concrete outside *)

Section Examples.
#[local] Existing Instance Demo.runtime.

Lemma presign_missing_parameter_400_witness :
  absent Demo.no_filename "filename" ∧
  responds Demo.no_filename
    (presignHandler Demo.no_filename (Demo.serving true)).1 400
    {[ "error" := "Missing filename or type" ]}.
Proof.
  split; [reflexivity |].
  apply (presign_missing_parameter_400 Demo.no_filename (Demo.serving true)).
  left. reflexivity.
Defined.

Lemma presign_success_200_witness :
  gin.Query Demo.image_jpeg "filename" ≠ "" ∧
  gin.Query Demo.image_jpeg "type" ≠ "" ∧
  signing_outcome (Demo.serving true) (gin.Query Demo.image_jpeg "filename")
    = (Some Demo.signed_image, None) ∧
  ∃ obj : gin.H,
    responds Demo.image_jpeg
      (presignHandler Demo.image_jpeg (Demo.serving true)).1 200 obj ∧
    obj !! "url" = Some Demo.signed_image ∧
    obj !! "publicUrl" = Some "http://localhost:9000/uploads/image.jpg".
Proof.
  split; [by vm_compute |]. split; [by vm_compute |].
  split; [by vm_compute |].
  apply (presign_success_200 Demo.image_jpeg (Demo.serving true)
           Demo.signed_image); by vm_compute.
Defined.

Lemma presign_failure_500_witness :
  gin.Query Demo.image_jpeg "filename" ≠ "" ∧
  gin.Query Demo.image_jpeg "type" ≠ "" ∧
  signing_outcome (Demo.serving false) (gin.Query Demo.image_jpeg "filename")
    = (None, Some Demo.refused) ∧
  responds Demo.image_jpeg
    (presignHandler Demo.image_jpeg (Demo.serving false)).1 500
    {[ "error" := "Could not generate presigned URL" ]}.
Proof.
  split; [by vm_compute |]. split; [by vm_compute |].
  split; [by vm_compute |].
  apply (presign_failure_500 Demo.image_jpeg (Demo.serving false)
           None Demo.refused); by vm_compute.
Defined.

Lemma presign_call_made_witness :
  gin.Query Demo.image_jpeg "filename" ≠ "" ∧
  gin.Query Demo.image_jpeg "type" ≠ "" ∧
  trace (presignHandler Demo.image_jpeg (Demo.serving true)).2 =
    [EvPresign {| call_client := Some ("localhost:9000" : Client);
                  call_ctx := Background;
                  call_bucket := "uploads";
                  call_object := "image.jpg";
                  call_expires := 60000000000 |}]
  ∧ time.Minute = 60 * time.Second.
Proof.
  split; [by vm_compute |]. split; [by vm_compute |].
  apply (presign_call_made Demo.image_jpeg (Demo.serving true));
    by vm_compute.
Defined.

(** C5 as the claim has it fails: the storage endpoint refuses the
    connection, every logger is set up, and after the handler has
    answered the log output has no line. *)
Lemma presign_failure_logged_counterexample :
  gin.Query Demo.image_jpeg "filename" ≠ "" ∧
  gin.Query Demo.image_jpeg "type" ≠ "" ∧
  signing_outcome (Demo.serving false) (gin.Query Demo.image_jpeg "filename")
    = (None, Some Demo.refused) ∧
  errorLogger (loggers (Demo.serving false)) = Some {| log.prefix := "ERROR: " |} ∧
  output (presignHandler Demo.image_jpeg (Demo.serving false)).2 = [] ∧
  ¬ ∃ line : log.Line,
      line ∈ output (presignHandler Demo.image_jpeg (Demo.serving false)).2.
Proof.
  split; [by vm_compute |]. split; [by vm_compute |].
  split; [by vm_compute |]. split; [reflexivity |].
  assert (Hout : output (presignHandler Demo.image_jpeg (Demo.serving false)).2 = [])
    by (by vm_compute).
  split; [exact Hout |]. rewrite Hout. intros [line Hin].
  by apply elem_of_nil in Hin.
Qed.

Lemma presign_failure_not_logged_witness :
  gin.Query Demo.image_jpeg "filename" ≠ "" ∧
  gin.Query Demo.image_jpeg "type" ≠ "" ∧
  signing_outcome (Demo.serving false) (gin.Query Demo.image_jpeg "filename")
    = (None, Some Demo.refused) ∧
  output (presignHandler Demo.image_jpeg (Demo.serving false)).2
    = output (Demo.serving false) ∧
  responds Demo.image_jpeg
    (presignHandler Demo.image_jpeg (Demo.serving false)).1 500
    {[ "error" := "Could not generate presigned URL" ]}.
Proof.
  split; [by vm_compute |]. split; [by vm_compute |].
  split; [by vm_compute |].
  apply (presign_failure_not_logged Demo.image_jpeg (Demo.serving false)
           None Demo.refused); by vm_compute.
Defined.


Lemma presign_rejection_is_local_witness :
  empty (Demo.request [("filename", ""); ("type", "text/plain")]) "filename" ∧
  (presignHandler (Demo.request [("filename", ""); ("type", "text/plain")])
     (Demo.serving false)).2 = Demo.serving false.
Proof.
  split; [by exists [] |].
  apply (presign_rejection_is_local
           (Demo.request [("filename", ""); ("type", "text/plain")])
           (Demo.serving false)).
  right; left. by exists [].
Defined.

Lemma presign_is_pure_witness :
  same_config (Demo.serving true) (Demo.serving true) ∧
  signing_outcome (Demo.serving true) (gin.Query Demo.image_jpeg "filename") =
    signing_outcome (Demo.serving true) (gin.Query Demo.image_jpeg "filename") ∧
  Outcome_map gin.Writer (presignHandler Demo.image_jpeg (Demo.serving true)).1 =
    Outcome_map gin.Writer (presignHandler Demo.image_jpeg (Demo.serving true)).1 ∧
  unchanged (Demo.serving true)
    (presignHandler Demo.image_jpeg (Demo.serving true)).2.
Proof.
  split; [by vm_compute |]. split; [by vm_compute |].
  destruct (presign_is_pure Demo.image_jpeg Demo.image_jpeg
              (Demo.serving true) (Demo.serving true))
    as (Hsame & Hframe & _);
    [by vm_compute | by vm_compute | by vm_compute | by vm_compute
    | by vm_compute |].
  split; [exact Hsame | exact Hframe].
Defined.


Lemma config_default_and_fallback_witness :
  deployment (Demo.starting (Some None)) "development" ∧
  os_IsNotExist
    (os_Stat (world (Demo.starting (Some None))) ".env.development") = true ∧
  trace (LoadConfig (Demo.starting (Some None))).2 =
    [EvStat ".env.development"; EvLoad ".env"] ∧
  fatal (LoadConfig (Demo.starting (Some None))).1 ∧
  (main_loadEnv (Demo.starting (Some None))).1 = Exited 1.
Proof.
  assert (Henv : deployment (Demo.starting (Some None)) "development")
    by (left; by vm_compute).
  split; [exact Henv |]. split; [by vm_compute |].
  destruct (config_default_and_fallback (Demo.starting (Some None))
              "development" Henv)
    as ((Htrace & Hfatal) & _ & Hexit & _); [by vm_compute |].
  split; [exact Htrace |].
  split; [apply Hfatal | apply Hexit]; eexists; by vm_compute.
Defined.
End Examples.

(** * Further properties of the code *)

Section MoreProperties.
Context `{pf : Platform}.
Implicit Types (c : gin.Context) (p : Process) (h : Host).

(** ** The handler: which answer when *)

(** An answer on the accepting path is the 500 for an error of the
    signing client, or the 200 for a URL without error. *)
Lemma accepted_response c p code (obj : gin.H) :
  gin.Query c "filename" ≠ "" → gin.Query c "type" ≠ "" →
  responds c (presignHandler c p).1 code obj →
  (code = 500 ∧
   ∃ u err, signing_outcome p (gin.Query c "filename") = (u, Some err)) ∨
  (code = 200 ∧
   ∃ u, signing_outcome p (gin.Query c "filename") = (Some u, None)).
Proof.
  intros Hf Ht. rewrite (presignHandler_accepts c p Hf Ht). cbv zeta.
  unfold signing_outcome.
  destruct (minio_PresignedPutObject _ _ _ _ _ _).1 as [[u|] [e|]]; cbn [fst].
  - intros [-> _]%responds_inv. left. eauto.
  - intros [-> _]%responds_inv. right. eauto.
  - intros [-> _]%responds_inv. left. eauto.
  - by intros (c' & [=] & _).
Qed.

(** X1.  The handler answers 400 exactly when [c.Query] gives the empty
    string for [filename] or for [type]. *)
Theorem presign_400_iff c p :
  (∃ obj : gin.H, responds c (presignHandler c p).1 400 obj) ↔
  gin.Query c "filename" = "" ∨ gin.Query c "type" = "".
Proof.
  split.
  - intros [obj Hr].
    destruct (decide (gin.Query c "filename" = "")) as [| Hf]; [by left |].
    destruct (decide (gin.Query c "type" = "")) as [| Ht]; [by right |].
    by destruct (accepted_response c p 400 obj Hf Ht Hr) as [[[=] _] | [[=] _]].
  - intros Hq. rewrite (presignHandler_rejects c p Hq).
    eexists. apply responds_JSON.
Qed.


(** X3.  On an accepted request the status says what the signing client
    did: 200 exactly when it returned a URL and no error, 500 exactly when
    it returned an error (with or without a URL). *)
Theorem presign_status_by_signing c p :
  gin.Query c "filename" ≠ "" → gin.Query c "type" ≠ "" →
  ((∃ obj : gin.H, responds c (presignHandler c p).1 200 obj) ↔
     ∃ u, signing_outcome p (gin.Query c "filename") = (Some u, None)) ∧
  ((∃ obj : gin.H, responds c (presignHandler c p).1 500 obj) ↔
     ∃ u err, signing_outcome p (gin.Query c "filename") = (u, Some err)).
Proof.
  intros Hf Ht. split; split.
  - intros [obj Hr].
    by destruct (accepted_response c p 200 obj Hf Ht Hr) as [[[=] _] | [_ ?]].
  - intros [u Hsig]. rewrite (presignHandler_success c p u Hf Ht Hsig).
    eexists. apply responds_JSON.
  - intros [obj Hr].
    by destruct (accepted_response c p 500 obj Hf Ht Hr) as [[_ ?] | [[=] _]].
  - intros (u & err & Hsig).
    rewrite (presignHandler_failure c p u err Hf Ht Hsig).
    eexists. apply responds_JSON.
Qed.

(** ** The loggers *)

(** X4.  [LogFatal] never returns.  With the fatal logger set it prints
    one line, the formatted message under that logger's prefix, and exits
    with status 1; with the logger nil it panics and prints nothing. *)
Theorem LogFatal_never_returns (format : string) (args : list string) p :
  fatal (LogFatal format args p).1 ∧
  LogFatal format args p =
    match fatalLogger (loggers p) with
    | Some l =>
        (Exited 1,
         add_output {| log.line_prefix := log.prefix l;
                       log.line_text := fmt.Sprintf format args |} p)
    | None => (Panicked nil_dereference, p)
    end.
Proof.
  unfold LogFatal, Output, os_Exit, panic, mbind, Go_bind, gets, modify.
  by destruct (fatalLogger (loggers p)).
Qed.

(** X5.  With the loggers as [InitLogger] sets them, each of [LogError],
    [LogWarning], [LogInfo] and [LogDebug] returns after printing exactly
    one line, the formatted message under the prefix of its own level, and
    changes nothing else in the process. *)
Theorem Log_levels_after_init (format : string) (args : list string) p :
  loggers p = initialized_loggers →
  LogError format args p =
    (Returned (), add_output {| log.line_prefix := "ERROR: ";
                                log.line_text := fmt.Sprintf format args |} p) ∧
  LogWarning format args p =
    (Returned (), add_output {| log.line_prefix := "WARNING: ";
                                log.line_text := fmt.Sprintf format args |} p) ∧
  LogInfo format args p =
    (Returned (), add_output {| log.line_prefix := "INFO: ";
                                log.line_text := fmt.Sprintf format args |} p) ∧
  LogDebug format args p =
    (Returned (), add_output {| log.line_prefix := "DEBUG: ";
                                log.line_text := fmt.Sprintf format args |} p).
Proof.
  intros Hl.
  unfold LogError, LogWarning, LogInfo, LogDebug, Output, mbind, Go_bind,
    gets, modify.
  by rewrite Hl.
Qed.

(** X6.  Before [InitLogger] has run the five loggers are nil, and every
    one of the five log functions panics on the nil logger; nothing is
    printed and the process is as it was. *)
Theorem Log_before_init_panics (format : string) (args : list string) p :
  loggers p = nil_loggers →
  LogError format args p = (Panicked nil_dereference, p) ∧
  LogWarning format args p = (Panicked nil_dereference, p) ∧
  LogInfo format args p = (Panicked nil_dereference, p) ∧
  LogDebug format args p = (Panicked nil_dereference, p) ∧
  LogFatal format args p = (Panicked nil_dereference, p).
Proof.
  intros Hl.
  unfold LogError, LogWarning, LogInfo, LogDebug, LogFatal, Output, panic,
    mbind, Go_bind, gets, modify.
  by rewrite Hl.
Qed.

(** ** Configuration loading, beyond the fallback *)

(** The file asked for first, in every state. *)
Lemma LoadConfig_trace p :
  ∃ envFile,
    (envFile = ".env" ∨
     envFile = ".env." +:+ (if String.eqb (getenv p "MIRAIO_ENV") ""
                            then "development" else getenv p "MIRAIO_ENV")) ∧
    trace (LoadConfig p).2 =
      (trace p ++
       [EvStat (".env." +:+ (if String.eqb (getenv p "MIRAIO_ENV") ""
                             then "development" else getenv p "MIRAIO_ENV"));
        EvLoad envFile])%list.
Proof.
  unfold LoadConfig, os_Getenv, Stat, godotenv_Load, LogFatal,
    Output, os_Exit, panic, mbind, Go_bind, gets, modify, mret, Go_ret, getenv.
  cbn [fst snd world add_event environ loggers].
  set (env := if String.eqb _ "" then _ else _).
  destruct (os_IsNotExist _);
    [exists ".env" | exists (".env." +:+ env)];
    (split; [auto |]);
    destruct (godotenv_readFile (world p) _) as [vars | err]; cbn;
      try destruct (fatalLogger (loggers p)); cbn; by rewrite <- app_assoc.
Qed.

(** X7.  There is one attempt at loading, not two: when the file
    [.env.<environment>] is there (or cannot be examined for a reason other
    than not existing) and loading it fails, the process ends, although
    [.env] was never tried.  So in [LoadConfig], so at the start of [main]
    in [pkg/main.go]. *)
Theorem config_no_second_try p (env : string) (err : error) :
  deployment p env →
  os_IsNotExist (os_Stat (world p) (".env." +:+ env)) = false →
  godotenv_readFile (world p) (".env." +:+ env) = inr err →
  (fatal (LoadConfig p).1 ∧
   trace (LoadConfig p).2 =
     (trace p ++ [EvStat (".env." +:+ env); EvLoad (".env." +:+ env)])%list) ∧
  ((main_loadEnv p).1 = Exited 1 ∧
   trace (main_loadEnv p).2 =
     (trace p ++ [EvStat (".env." +:+ env); EvLoad (".env." +:+ env)])%list).
Proof.
  intros Henv Hex Hread. split.
  - rewrite (LoadConfig_run p env Henv). cbv zeta. rewrite Hex, Hread.
    destruct (fatalLogger (loggers p)); cbn; by rewrite <- app_assoc.
  - rewrite (main_loadEnv_run p env Henv). cbv zeta. rewrite Hex, Hread.
    cbn. by rewrite <- app_assoc.
Qed.

(** X8.  [MIRAIO_ENV] set to the empty string counts as unset: the file
    examined first is [.env.development], and the file loaded is that one
    or [.env]. *)
Theorem LoadConfig_empty_env_is_development p :
  environ p !! "MIRAIO_ENV" = Some "" →
  ∃ envFile,
    (envFile = ".env" ∨ envFile = ".env.development") ∧
    trace (LoadConfig p).2 =
      (trace p ++ [EvStat ".env.development"; EvLoad envFile])%list.
Proof.
  intros Henv. destruct (LoadConfig_trace p) as (envFile & Hfile & Htrace).
  unfold getenv in Hfile, Htrace. rewrite Henv in Hfile, Htrace.
  by exists envFile.
Qed.


(** ** [InitLogger] *)

Lemma or_default_eq p (key fallback value : string) :
  or_default p key fallback value →
  (if String.eqb (default "" (environ p !! key)) ""
   then fallback else default "" (environ p !! key)) = value.
Proof.
  unfold or_default, getenv. intros [[-> ->] | [-> Hne]]; [done |].
  by rewrite (eqb_empty_false _ Hne).
Qed.

Lemma Sprintf_server_log (timestamp : string) :
  fmt.Sprintf "server-%s.log" [timestamp] = "server-" +:+ timestamp +:+ ".log".
Proof. reflexivity. Qed.


Lemma Sprintf_failed (text a : string) :
  fmt.Sprintf ("Failed to create log directory: %v" +:+ newline) [a]
    = "Failed to create log directory: " +:+ a +:+ newline ∧
  fmt.Sprintf ("Failed to open log file: %v" +:+ newline) [a]
    = "Failed to open log file: " +:+ a +:+ newline.
Proof. by split. Qed.

(** X11.  [InitLogger], when the directory cannot be made: the error is
    printed on standard output, the process exits with status 1, no file
    is opened and the loggers are left as they were; no line is logged. *)
Theorem InitLogger_mkdir_failure h (logDir : string) (err : error) (w1 : World) :
  or_default (process h) "MIRAIO_LOG_DIR" "/var/log/miraio" logDir →
  os_MkdirAll logDir mode_0755 (world (process h)) = (Some err, w1) →
  (InitLogger h).1 = Exited 1 ∧
  stdout (InitLogger h).2 =
    (stdout h ++
     ["Failed to create log directory: " +:+ Error err +:+ newline])%list ∧
  calls (InitLogger h).2 = (calls h ++ [CallMkdirAll logDir 493])%list ∧
  loggers (process (InitLogger h).2) = loggers (process h) ∧
  output (process (InitLogger h).2) = output (process h).
Proof.
  intros Hdir Hmk.
  unfold InitLogger, MkdirAll, OpenFile, outside, Printf, lift, os_Getenv,
    os_Exit, Output, mbind, Boot_bind, gets, modify.
  cbn -[fmt.Sprintf String.append mode_0755 mode_0666].
  rewrite (or_default_eq _ _ _ _ Hdir), Hmk.
  cbn -[fmt.Sprintf String.append mode_0755 mode_0666].
  by rewrite (proj1 (Sprintf_failed "" (Error err))).
Qed.

(** X12.  [InitLogger], when the directory is there but the log file
    cannot be opened: the error is printed on standard output, the process
    exits with status 1, and the loggers are left as they were. *)
Theorem InitLogger_open_failure h (logDir : string) (err : error)
    (w1 w2 : World) :
  or_default (process h) "MIRAIO_LOG_DIR" "/var/log/miraio" logDir →
  os_MkdirAll logDir mode_0755 (world (process h)) = (None, w1) →
  os_OpenFile
    (filepath_Join logDir
       ("server-" +:+ time_Now_Format "2006-01-02-15-04-05" w1 +:+ ".log"))
    [O_CREATE; O_WRONLY; O_APPEND] mode_0666 w1 = (Some err, w2) →
  (InitLogger h).1 = Exited 1 ∧
  stdout (InitLogger h).2 =
    (stdout h ++ ["Failed to open log file: " +:+ Error err +:+ newline])%list ∧
  loggers (process (InitLogger h).2) = loggers (process h) ∧
  output (process (InitLogger h).2) = output (process h).
Proof.
  intros Hdir Hmk Hop.
  unfold InitLogger, MkdirAll, OpenFile, outside, Printf, lift, os_Getenv,
    os_Exit, Output, mbind, Boot_bind, gets, modify.
  cbn -[fmt.Sprintf String.append mode_0755 mode_0666].
  rewrite (or_default_eq _ _ _ _ Hdir), Hmk.
  cbn -[fmt.Sprintf String.append mode_0755 mode_0666].
  rewrite Sprintf_server_log, Hop.
  cbn -[fmt.Sprintf String.append].
  by rewrite (proj2 (Sprintf_failed "" (Error err))).
Qed.

(** What a returning [InitLogger] leaves: the loggers set, and the
    environment and the variables of [main] as they were. *)
Lemma InitLogger_returned h h' :
  InitLogger h = (Returned (), h') →
  loggers (process h') = initialized_loggers ∧
  environ (process h') = environ (process h) ∧
  minioClient (process h') = minioClient (process h) ∧
  bucketName (process h') = bucketName (process h) ∧
  publicURL (process h') = publicURL (process h).
Proof.
  unfold InitLogger, MkdirAll, OpenFile, outside, Printf, lift, os_Getenv,
    os_Exit, Output, mbind, Boot_bind, gets, modify.
  cbn -[fmt.Sprintf String.append mode_0755 mode_0666].
  destruct (os_MkdirAll _ _ _) as [[e1|] w1];
    cbn -[fmt.Sprintf String.append mode_0755 mode_0666]; [done |].
  destruct (os_OpenFile _ _ _ _) as [[e2|] w2];
    cbn -[fmt.Sprintf String.append mode_0755 mode_0666]; [done |].
  by intros [= <-].
Qed.

(** ** The two [main] functions *)

Lemma never_returns_bind_l {A B} (m : Boot A) (k : A → Boot B) :
  never_returns m → never_returns (m ≫= k).
Proof.
  intros Hm h. specialize (Hm h). unfold mbind, Boot_bind.
  by destruct (m h) as [[a | msg | code] h'].
Qed.

Lemma never_returns_bind_r {A B} (m : Boot A) (k : A → Boot B) :
  (∀ a, never_returns (k a)) → never_returns (m ≫= k).
Proof.
  intros Hk h. unfold mbind, Boot_bind.
  destruct (m h) as [[a | msg | code] h']; [apply Hk | done | done].
Qed.

Lemma never_returns_lift {A} (m : Go A) :
  (∀ p, fatal (m p).1) → never_returns (lift m).
Proof.
  intros Hm h. specialize (Hm (process h)). unfold lift.
  by destruct (m (process h)).
Qed.

Lemma log_Fatal_fatal {A} (s : string) p : fatal (log_Fatal (A := A) s p).1.
Proof. done. Qed.

Lemma LogFatal_fatal (format : string) (args : list string) p :
  fatal (LogFatal format args p).1.
Proof.
  unfold LogFatal, Output, os_Exit, panic, mbind, Go_bind, gets, modify.
  by destruct (fatalLogger (loggers p)).
Qed.

Ltac to_the_client :=
  repeat (apply never_returns_bind_r; intros ?);
  match goal with
  | x : (option Client * option error)%type |- _ => destruct x as [client err]
  end;
  apply never_returns_bind_r; intros _.

(** X13.  [main] never returns: whatever the environment and the outside
    do, the process ends by exit or by panic; in particular, when the
    listener stops, with or without an error, [main] does not fall through
    but goes through [LogFatal]. *)
Theorem main_never_returns : never_returns main.
Proof.
  unfold main. to_the_client.
  destruct err as [err |].
  - apply never_returns_bind_l, never_returns_lift.
    intros p. apply LogFatal_fatal.
  - cbv zeta. repeat (apply never_returns_bind_r; intros ?).
    apply never_returns_lift. intros p. apply LogFatal_fatal.
Qed.

(** X14.  [main] of [pkg/main.go] never returns either: each of its ends
    is a [log.Fatal]. *)
Theorem pkg_main_never_returns : never_returns pkg_main.
Proof.
  unfold pkg_main. to_the_client.
  destruct err as [err |].
  - apply never_returns_lift. intros p. apply log_Fatal_fatal.
  - cbv zeta. repeat (apply never_returns_bind_r; intros ?).
    apply never_returns_lift. intros p. apply log_Fatal_fatal.
Qed.

Lemma Boot_bind_Returned {A B} (m : Boot A) (k : A → Boot B) h (a : A) h' :
  m h = (Returned a, h') → (m ≫= k) h = k a h'.
Proof. intros Hm. unfold mbind, Boot_bind. by rewrite Hm. Qed.

Lemma Boot_bind_Panicked {A B} (m : Boot A) (k : A → Boot B) h msg h' :
  m h = (Panicked msg, h') → (m ≫= k) h = (Panicked msg, h').
Proof. intros Hm. unfold mbind, Boot_bind. by rewrite Hm. Qed.

Lemma LoadConfig_nil_logger p :
  fatalLogger (loggers p) = None →
  fatal (LoadConfig p).1 →
  (LoadConfig p).1 = Panicked nil_dereference ∧
  output (LoadConfig p).2 = output p.
Proof.
  intros Hnil.
  unfold LoadConfig, os_Getenv, Stat, godotenv_Load, LogFatal,
    Output, os_Exit, panic, mbind, Go_bind, gets, modify, mret, Go_ret.
  cbn [fst snd world add_event environ loggers].
  destruct (godotenv_readFile (world p) _) as [vars | err]; cbn; [done |].
  by rewrite Hnil.
Qed.

(** X15.  Run from a process whose fatal logger is still nil, as it is at
    process start, [main] with an environment file that cannot be loaded
    ends in a nil-dereference panic: [LoadConfig] comes before
    [InitLogger], so its "Error loading .env file" is never printed, on
    the log or on standard output, and nothing of start-up is called. *)
Theorem main_config_failure_panics h :
  fatalLogger (loggers (process h)) = None →
  fatal (LoadConfig (process h)).1 →
  (main h).1 = Panicked nil_dereference ∧
  output (process (main h).2) = output (process h) ∧
  stdout (main h).2 = stdout h ∧
  calls (main h).2 = calls h.
Proof.
  intros Hnil Hfatal.
  destruct (LoadConfig_nil_logger _ Hnil Hfatal) as [Hout Hsame].
  unfold main.
  rewrite (Boot_bind_Panicked (lift LoadConfig) _ h nil_dereference
             (with_process h (LoadConfig (process h)).2)).
  - done.
  - unfold lift, with_process.
    destruct (LoadConfig (process h)) as [o p']. cbn in Hout. by rewrite Hout.
Qed.

Ltac run_main H1 H2 :=
  rewrite (Boot_bind_Returned _ _ _ _ _ H1);
  try rewrite (Boot_bind_Returned _ _ _ _ _ H2);
  unfold New, Run, Println, outside, lift, os_Getenv, LogFatal, LogInfo,
    log_Fatal, Output, os_Exit, mbind, Boot_bind, Go_bind, gets, modify;
  cbn -[fmt.Sprintf String.append].

(** X16.  [main], once configuration and loggers are set up, constructs
    the storage client from the five [MIRAIO_MINIO_] variables, with an
    empty session token.  When the construction fails, the error is
    logged as a FATAL line, the process exits with status 1, and the
    listener is never started. *)
Theorem main_client_failure h h1 h2 (client : option Client) (err : error) :
  lift LoadConfig h = (Returned (), h1) →
  InitLogger h1 = (Returned (), h2) →
  minio_New (getenv (process h2) "MIRAIO_MINIO_ENDPOINT")
    (getenv (process h2) "MIRAIO_MINIO_ACCESS_KEY")
    (getenv (process h2) "MIRAIO_MINIO_SECRET_KEY") ""
    (String.eqb (getenv (process h2) "MIRAIO_MINIO_USE_SSL") "true")
    (world (process h2)) = (client, Some err) →
  (main h).1 = Exited 1 ∧
  calls (main h).2 =
    (calls h2 ++
     [CallNew (getenv (process h2) "MIRAIO_MINIO_ENDPOINT")
        (getenv (process h2) "MIRAIO_MINIO_ACCESS_KEY")
        (getenv (process h2) "MIRAIO_MINIO_SECRET_KEY") ""
        (String.eqb (getenv (process h2) "MIRAIO_MINIO_USE_SSL") "true")])%list ∧
  output (process (main h).2) =
    (output (process h2) ++
     [ {| log.line_prefix := "FATAL: ";
          log.line_text :=
            "Error initializing MinIO client: " +:+ Error err |} ])%list.
Proof.
  intros H1 H2 Hnew.
  destruct (InitLogger_returned _ _ H2) as (Hlog & _).
  unfold getenv in Hnew. unfold main, getenv. run_main H1 H2.
  rewrite Hnew. cbn -[fmt.Sprintf String.append].
  rewrite Hlog. cbn -[String.append].
  by rewrite append_empty_r.
Qed.

(** X17.  [main], when the client is constructed: the package variables
    are the client and the values of [MIRAIO_MINIO_BUCKET] and
    [MIRAIO_MINIO_PUBLIC_URL] as they are (empty when unset; nothing is
    checked); the one route is GET /presign; the listener is started on
    [":" + MIRAIO_PORT], on [":9080"] when that is unset or empty; an INFO
    line announces the port; and when the listener returns, its error is
    logged as a FATAL line and the process exits with status 1. *)
Theorem main_serves h h1 h2 (client : option Client) (port : string)
    (stopped : option error) (w' : World) :
  lift LoadConfig h = (Returned (), h1) →
  InitLogger h1 = (Returned (), h2) →
  minio_New (getenv (process h2) "MIRAIO_MINIO_ENDPOINT")
    (getenv (process h2) "MIRAIO_MINIO_ACCESS_KEY")
    (getenv (process h2) "MIRAIO_MINIO_SECRET_KEY") ""
    (String.eqb (getenv (process h2) "MIRAIO_MINIO_USE_SSL") "true")
    (world (process h2)) = (client, None) →
  or_default (process h2) "MIRAIO_PORT" "9080" port →
  gin_Run [("GET", "/presign")] (":" +:+ port) (world (process h2))
    = (stopped, w') →
  (main h).1 = Exited 1 ∧
  calls (main h).2 =
    (calls h2 ++
     [CallNew (getenv (process h2) "MIRAIO_MINIO_ENDPOINT")
        (getenv (process h2) "MIRAIO_MINIO_ACCESS_KEY")
        (getenv (process h2) "MIRAIO_MINIO_SECRET_KEY") ""
        (String.eqb (getenv (process h2) "MIRAIO_MINIO_USE_SSL") "true");
      CallRun [("GET", "/presign")] (":" +:+ port)])%list ∧
  output (process (main h).2) =
    (output (process h2) ++
     [ {| log.line_prefix := "INFO: ";
          log.line_text := "Server running on " +:+ port |};
       {| log.line_prefix := "FATAL: ";
          log.line_text :=
            "Error starting server: " +:+ error_text stopped |} ])%list ∧
  minioClient (process (main h).2) = client ∧
  bucketName (process (main h).2) = getenv (process h2) "MIRAIO_MINIO_BUCKET" ∧
  publicURL (process (main h).2) = getenv (process h2) "MIRAIO_MINIO_PUBLIC_URL".
Proof.
  intros H1 H2 Hnew Hport Hrun.
  destruct (InitLogger_returned _ _ H2) as (Hlog & _).
  unfold getenv in Hnew. unfold main, getenv. run_main H1 H2.
  rewrite Hnew. cbn -[fmt.Sprintf String.append].
  rewrite (or_default_eq _ _ _ _ Hport), Hlog.
  cbn -[fmt.Sprintf String.append].
  rewrite Hrun. cbn -[fmt.Sprintf String.append].
  rewrite Hlog. cbn -[String.append].
  by rewrite !append_empty_r, <- !app_assoc.
Qed.

Lemma eqb_true_lookup (m : gmap string string) (key : string) :
  String.eqb (default "" (m !! key)) "true" = true ↔ m !! key = Some "true".
Proof.
  destruct (m !! key) as [v |]; cbn.
  - rewrite String.eqb_eq. split; [by intros -> | by intros [= ->]].
  - done.
Qed.

(** X18.  TLS towards the storage endpoint is switched on by the exact
    value "true" of [MIRAIO_MINIO_USE_SSL] and by nothing else: the
    [Secure] option that [main] hands to [minio.New] is true exactly when
    the variable is set to that string. *)
Theorem main_tls_only_true h h1 h2 :
  lift LoadConfig h = (Returned (), h1) →
  InitLogger h1 = (Returned (), h2) →
  ∃ (endpoint id secret : string) (secure : bool) (rest : list Call),
    calls (main h).2 =
      (calls h2 ++ CallNew endpoint id secret "" secure :: rest)%list ∧
    (secure = true ↔
       environ (process h2) !! "MIRAIO_MINIO_USE_SSL" = Some "true").
Proof.
  intros H1 H2.
  destruct (InitLogger_returned _ _ H2) as (Hlog & _).
  unfold main. run_main H1 H2.
  destruct (minio_New _ _ _ _ _ _) as [client [err |]];
    cbn -[fmt.Sprintf String.append]; rewrite Hlog;
    cbn -[fmt.Sprintf String.append].
  - do 5 eexists. split; [done | apply eqb_true_lookup].
  - destruct (gin_Run _ _ _) as [stopped w'].
    cbn -[fmt.Sprintf String.append]. rewrite Hlog.
    cbn -[fmt.Sprintf String.append]. rewrite <- app_assoc.
    do 5 eexists. split; [done | apply eqb_true_lookup].
Qed.

(** X19.  [main] of [pkg/main.go], when the environment file is loaded and
    the client constructed: it reads the variables without the [MIRAIO_]
    prefix, prints "Server running on :5000" on standard output and starts
    the listener on [":5000"], whatever the environment says about a port;
    when the listener returns, its error is printed by the standard logger
    and the process exits with status 1. *)
Theorem pkg_main_serves h (p1 : Process) (client : option Client)
    (stopped : option error) (w' : World) :
  main_loadEnv (process h) = (Returned (), p1) →
  minio_New (getenv p1 "MINIO_ENDPOINT") (getenv p1 "MINIO_ACCESS_KEY")
    (getenv p1 "MINIO_SECRET_KEY") ""
    (String.eqb (getenv p1 "MINIO_USE_SSL") "true") (world p1)
    = (client, None) →
  gin_Run [("GET", "/presign")] ":5000" (world p1) = (stopped, w') →
  (pkg_main h).1 = Exited 1 ∧
  calls (pkg_main h).2 =
    (calls h ++
     [CallNew (getenv p1 "MINIO_ENDPOINT") (getenv p1 "MINIO_ACCESS_KEY")
        (getenv p1 "MINIO_SECRET_KEY") ""
        (String.eqb (getenv p1 "MINIO_USE_SSL") "true");
      CallRun [("GET", "/presign")] ":5000"])%list ∧
  stdout (pkg_main h).2 =
    (stdout h ++ ["Server running on :5000" +:+ newline])%list ∧
  output (process (pkg_main h).2) =
    (output p1 ++
     [ {| log.line_prefix := ""; log.line_text := error_text stopped |} ])%list ∧
  minioClient (process (pkg_main h).2) = client ∧
  bucketName (process (pkg_main h).2) = getenv p1 "MINIO_BUCKET" ∧
  publicURL (process (pkg_main h).2) = getenv p1 "MINIO_PUBLIC_URL".
Proof.
  intros H1 Hnew Hrun.
  assert (Hl : lift main_loadEnv h = (Returned (), with_process h p1))
    by (unfold lift; by rewrite H1).
  unfold getenv in Hnew. unfold pkg_main, getenv. run_main Hl Hl.
  rewrite Hnew. cbn -[String.append].
  rewrite Hrun. cbn -[String.append].
  by rewrite <- !app_assoc.
Qed.

End MoreProperties.

(** * The further properties on the concrete outside *)

Section MoreExamples.
#[local] Existing Instance Demo.runtime.
#[local] Existing Instance DemoBoot.platform.

Lemma presign_status_by_signing_witness :
  gin.Query Demo.image_jpeg "filename" ≠ "" ∧
  gin.Query Demo.image_jpeg "type" ≠ "" ∧
  ((∃ obj : gin.H,
      responds Demo.image_jpeg
        (presignHandler Demo.image_jpeg (Demo.serving false)).1 500 obj) ↔
   ∃ u err,
     signing_outcome (Demo.serving false) (gin.Query Demo.image_jpeg "filename")
       = (u, Some err)).
Proof.
  split; [by vm_compute |]. split; [by vm_compute |].
  apply (presign_status_by_signing Demo.image_jpeg (Demo.serving false));
    by vm_compute.
Defined.

Lemma Log_levels_after_init_witness :
  loggers (Demo.serving true) = initialized_loggers ∧
  LogError "upload %s failed: %v" ["a.txt"; "timeout"] (Demo.serving true) =
    (Returned (),
     add_output {| log.line_prefix := "ERROR: ";
                   log.line_text := "upload a.txt failed: timeout" |}
       (Demo.serving true)).
Proof.
  split; [reflexivity |].
  apply (Log_levels_after_init "upload %s failed: %v" ["a.txt"; "timeout"]
           (Demo.serving true)).
  reflexivity.
Defined.

Lemma Log_before_init_panics_witness :
  loggers (DemoBoot.fresh ∅ ∅) = nil_loggers ∧
  LogInfo "Server running on %s" ["9080"] (DemoBoot.fresh ∅ ∅) =
    (Panicked nil_dereference, DemoBoot.fresh ∅ ∅).
Proof.
  split; [reflexivity |].
  apply (Log_before_init_panics "Server running on %s" ["9080"]
           (DemoBoot.fresh ∅ ∅)).
  reflexivity.
Defined.

Lemma config_no_second_try_witness :
  deployment
    (DemoBoot.fresh ∅ {[ ".env.development" := None;
                         ".env" := Some DemoBoot.dotenv ]})
    "development" ∧
  fatal (LoadConfig
           (DemoBoot.fresh ∅ {[ ".env.development" := None;
                                ".env" := Some DemoBoot.dotenv ]})).1 ∧
  trace (LoadConfig
           (DemoBoot.fresh ∅ {[ ".env.development" := None;
                                ".env" := Some DemoBoot.dotenv ]})).2
    = [EvStat ".env.development"; EvLoad ".env.development"].
Proof.
  set (p := DemoBoot.fresh ∅ {[ ".env.development" := None;
                                ".env" := Some DemoBoot.dotenv ]}).
  assert (Henv : deployment p "development") by (left; by vm_compute).
  split; [exact Henv |].
  destruct (config_no_second_try p "development"
              "unexpected character in variable name" Henv)
    as ((Hfatal & Htrace) & _); [by vm_compute | by vm_compute |].
  split; [exact Hfatal | exact Htrace].
Defined.

Lemma LoadConfig_empty_env_is_development_witness :
  environ (DemoBoot.fresh {[ "MIRAIO_ENV" := "" ]} ∅) !! "MIRAIO_ENV" = Some "" ∧
  ∃ envFile,
    (envFile = ".env" ∨ envFile = ".env.development") ∧
    trace (LoadConfig (DemoBoot.fresh {[ "MIRAIO_ENV" := "" ]} ∅)).2 =
      [EvStat ".env.development"; EvLoad envFile].
Proof.
  split; [by vm_compute |].
  apply (LoadConfig_empty_env_is_development
           (DemoBoot.fresh {[ "MIRAIO_ENV" := "" ]} ∅)).
  by vm_compute.
Defined.



Lemma InitLogger_mkdir_failure_witness :
  or_default (process (DemoBoot.booting ∅ {[ "/var/log/miraio" := None ]}))
    "MIRAIO_LOG_DIR" "/var/log/miraio" "/var/log/miraio" ∧
  (InitLogger (DemoBoot.booting ∅ {[ "/var/log/miraio" := None ]})).1 = Exited 1 ∧
  stdout (InitLogger (DemoBoot.booting ∅ {[ "/var/log/miraio" := None ]})).2 =
    ["Failed to create log directory: mkdir /var/log/miraio: not a directory"
     +:+ newline].
Proof.
  assert (Hdir : or_default
                   (process (DemoBoot.booting ∅ {[ "/var/log/miraio" := None ]}))
                   "MIRAIO_LOG_DIR" "/var/log/miraio" "/var/log/miraio")
    by (left; by vm_compute).
  split; [exact Hdir |].
  destruct (InitLogger_mkdir_failure
              (DemoBoot.booting ∅ {[ "/var/log/miraio" := None ]})
              "/var/log/miraio"
              "mkdir /var/log/miraio: not a directory"
              (world (process (DemoBoot.booting ∅ {[ "/var/log/miraio" := None ]})))
              Hdir)
    as (Hret & Hout & _); [by vm_compute |].
  split; [exact Hret | exact Hout].
Defined.

Lemma InitLogger_open_failure_witness :
  or_default
    (process (DemoBoot.booting {[ "MIRAIO_LOG_DIR" := "/tmp/miraio" ]}
                {[ DemoBoot.log_file := None ]}))
    "MIRAIO_LOG_DIR" "/var/log/miraio" "/tmp/miraio" ∧
  (InitLogger (DemoBoot.booting {[ "MIRAIO_LOG_DIR" := "/tmp/miraio" ]}
                 {[ DemoBoot.log_file := None ]})).1 = Exited 1 ∧
  loggers (process
             (InitLogger (DemoBoot.booting {[ "MIRAIO_LOG_DIR" := "/tmp/miraio" ]}
                            {[ DemoBoot.log_file := None ]})).2) = nil_loggers.
Proof.
  set (h := DemoBoot.booting {[ "MIRAIO_LOG_DIR" := "/tmp/miraio" ]}
              {[ DemoBoot.log_file := None ]}).
  assert (Hdir : or_default (process h) "MIRAIO_LOG_DIR" "/var/log/miraio"
                   "/tmp/miraio")
    by (right; split; by vm_compute).
  split; [exact Hdir |].
  destruct (InitLogger_open_failure h "/tmp/miraio"
              "open /tmp/miraio/server-2025-01-31-12-00-00.log: permission denied"
              (world (process h)) (world (process h)) Hdir)
    as (Hret & _ & Hlog & _); [by vm_compute | by vm_compute |].
  split; [exact Hret | exact Hlog].
Defined.

Lemma main_config_failure_panics_witness :
  fatalLogger (loggers (process (DemoBoot.booting ∅ ∅))) = None ∧
  fatal (LoadConfig (process (DemoBoot.booting ∅ ∅))).1 ∧
  (main (DemoBoot.booting ∅ ∅)).1 = Panicked nil_dereference ∧
  output (process (main (DemoBoot.booting ∅ ∅)).2) = [].
Proof.
  assert (Hfatal : fatal (LoadConfig (process (DemoBoot.booting ∅ ∅))).1)
    by (by vm_compute).
  split; [reflexivity |]. split; [exact Hfatal |].
  destruct (main_config_failure_panics (DemoBoot.booting ∅ ∅) eq_refl Hfatal)
    as (Hret & Hout & _).
  split; [exact Hret | exact Hout].
Defined.

Lemma main_client_failure_witness :
  lift LoadConfig DemoBoot.start_no_endpoint
    = (Returned (), DemoBoot.loaded_no_endpoint) ∧
  InitLogger DemoBoot.loaded_no_endpoint
    = (Returned (), DemoBoot.logging_no_endpoint) ∧
  (main DemoBoot.start_no_endpoint).1 = Exited 1 ∧
  calls (main DemoBoot.start_no_endpoint).2 =
    [CallMkdirAll "/tmp/miraio" 493;
     CallOpenFile DemoBoot.log_file [O_CREATE; O_WRONLY; O_APPEND] 438;
     CallNew "" "minio" "minio123" "" false].
Proof.
  assert (H1 : lift LoadConfig DemoBoot.start_no_endpoint
                 = (Returned (), DemoBoot.loaded_no_endpoint)) by (by vm_compute).
  assert (H2 : InitLogger DemoBoot.loaded_no_endpoint
                 = (Returned (), DemoBoot.logging_no_endpoint)) by (by vm_compute).
  split; [exact H1 |]. split; [exact H2 |].
  destruct (main_client_failure DemoBoot.start_no_endpoint
              DemoBoot.loaded_no_endpoint DemoBoot.logging_no_endpoint
              None "Endpoint url cannot be empty." H1 H2)
    as (Hret & Hcalls & _); [by vm_compute |].
  split; [exact Hret |]. rewrite Hcalls. by vm_compute.
Defined.

Lemma main_serves_witness :
  lift LoadConfig DemoBoot.start = (Returned (), DemoBoot.loaded) ∧
  InitLogger DemoBoot.loaded = (Returned (), DemoBoot.logging) ∧
  or_default (process DemoBoot.logging) "MIRAIO_PORT" "9080" "9080" ∧
  (main DemoBoot.start).1 = Exited 1 ∧
  calls (main DemoBoot.start).2 =
    [CallMkdirAll "/tmp/miraio" 493;
     CallOpenFile DemoBoot.log_file [O_CREATE; O_WRONLY; O_APPEND] 438;
     CallNew "localhost:9000" "minio" "minio123" "" false;
     CallRun [("GET", "/presign")] ":9080"] ∧
  bucketName (process (main DemoBoot.start).2) = "uploads".
Proof.
  assert (H1 : lift LoadConfig DemoBoot.start = (Returned (), DemoBoot.loaded))
    by (by vm_compute).
  assert (H2 : InitLogger DemoBoot.loaded = (Returned (), DemoBoot.logging))
    by (by vm_compute).
  assert (Hport : or_default (process DemoBoot.logging) "MIRAIO_PORT" "9080" "9080")
    by (left; by vm_compute).
  split; [exact H1 |]. split; [exact H2 |]. split; [exact Hport |].
  destruct (main_serves DemoBoot.start DemoBoot.loaded DemoBoot.logging
              (Some "localhost:9000") "9080"
              (Some (DemoBoot.in_use ":9080"))
              (world (process DemoBoot.logging)) H1 H2)
    as (Hret & Hcalls & _ & _ & Hbucket & _);
    [by vm_compute | exact Hport | by vm_compute |].
  split; [exact Hret |]. split.
  - rewrite Hcalls. by vm_compute.
  - rewrite Hbucket. by vm_compute.
Defined.

Lemma main_tls_only_true_witness :
  lift LoadConfig DemoBoot.start_upper = (Returned (), DemoBoot.loaded_upper) ∧
  InitLogger DemoBoot.loaded_upper = (Returned (), DemoBoot.logging_upper) ∧
  environ (process DemoBoot.logging_upper) !! "MIRAIO_MINIO_USE_SSL" = Some "TRUE" ∧
  ∃ (endpoint id secret : string) (secure : bool) (rest : list Call),
    calls (main DemoBoot.start_upper).2 =
      (calls DemoBoot.logging_upper
       ++ CallNew endpoint id secret "" secure :: rest)%list ∧
    (secure = true ↔
       environ (process DemoBoot.logging_upper) !! "MIRAIO_MINIO_USE_SSL"
         = Some "true").
Proof.
  assert (H1 : lift LoadConfig DemoBoot.start_upper
                 = (Returned (), DemoBoot.loaded_upper)) by (by vm_compute).
  assert (H2 : InitLogger DemoBoot.loaded_upper
                 = (Returned (), DemoBoot.logging_upper)) by (by vm_compute).
  split; [exact H1 |]. split; [exact H2 |]. split; [by vm_compute |].
  exact (main_tls_only_true DemoBoot.start_upper DemoBoot.loaded_upper
           DemoBoot.logging_upper H1 H2).
Defined.

Lemma pkg_main_serves_witness :
  main_loadEnv (process DemoBoot.pkg_start) = (Returned (), DemoBoot.pkg_loaded) ∧
  environ DemoBoot.pkg_loaded !! "MIRAIO_PORT" = Some "8000" ∧
  (pkg_main DemoBoot.pkg_start).1 = Exited 1 ∧
  calls (pkg_main DemoBoot.pkg_start).2 =
    [CallNew "localhost:9000" "minio" "minio123" "" true;
     CallRun [("GET", "/presign")] ":5000"] ∧
  stdout (pkg_main DemoBoot.pkg_start).2 =
    ["Server running on :5000" +:+ newline].
Proof.
  assert (H1 : main_loadEnv (process DemoBoot.pkg_start)
                 = (Returned (), DemoBoot.pkg_loaded)) by (by vm_compute).
  split; [exact H1 |]. split; [by vm_compute |].
  destruct (pkg_main_serves DemoBoot.pkg_start DemoBoot.pkg_loaded
              (Some "localhost:9000")
              (Some (DemoBoot.in_use ":5000"))
              (world DemoBoot.pkg_loaded) H1)
    as (Hret & Hcalls & Hout & _); [by vm_compute | by vm_compute |].
  split; [exact Hret |]. split.
  - rewrite Hcalls. by vm_compute.
  - exact Hout.
Defined.
End MoreExamples.
